(** * Allzpark: a shallow embedding of the launcher's Python sources

    The development follows the layout of the repository:

    - [Py]        the fragment of Python the sources rely on: values,
                  truthiness, equality, exceptions and results;
    - [Rezapi]    allzpark/_rezapi.py, the wrapper over the package manager;
    - [Resources] allzpark/resources.py, resource lookup and palettes;
    - [Delegates] allzpark/delegates.py, the version editor delegate;
    - [TestUtil]  tests/util.py, the signal waiting helper;
    - [Cli]       allzpark/cli.py, the command-line bootstrap.

    Calls into the package manager (Rez), into Qt, into the operating
    system and into the interpreter's own [repr] and [str.format] are not
    part of the repository; their outcomes are inputs of the model, either
    as section variables or as fields of a record describing the world a
    run takes place in. *)

From Stdlib Require Import ZArith Lia Ascii String Sorted.
From stdpp Require Import gmap strings list fin_maps.

Local Open Scope string_scope.

(* ===================================================================== *)
(** * Python values, exceptions and results *)
(* ===================================================================== *)

Module Py.

(** The values the sources store, compare and test for truth. *)
#[warnings="-register-all"]
Inductive pyval : Type :=
| VNone
| VBool (b : bool)
| VInt (n : Z)
| VStr (s : string)
| VList (l : list pyval).

(** [bool(v)]: what [if v:] and [not v] look at. *)
Definition truthy (v : pyval) : bool :=
  match v with
  | VNone => false
  | VBool b => b
  | VInt n => negb (n =? 0)%Z
  | VStr s => negb (String.eqb s "")
  | VList l => match l with [] => false | _ => true end
  end.

Definition Z_of_bool (b : bool) : Z := if b then 1%Z else 0%Z.

(** [v == w]. [bool] is a subclass of [int], so [True == 1]. *)
Fixpoint py_eq (v w : pyval) {struct v} : bool :=
  let fix list_eq (l : list pyval) (k : list pyval) {struct l} : bool :=
    match l, k with
    | [], [] => true
    | x :: l', y :: k' => py_eq x y && list_eq l' k'
    | _, _ => false
    end in
  match v, w with
  | VNone, VNone => true
  | VBool a, VBool b => Bool.eqb a b
  | VBool a, VInt n => (Z_of_bool a =? n)%Z
  | VInt n, VBool b => (n =? Z_of_bool b)%Z
  | VInt n, VInt m => (n =? m)%Z
  | VStr s, VStr t => String.eqb s t
  | VList l, VList k => list_eq l k
  | _, _ => false
  end.


Definition is_list (v : pyval) : bool :=
  match v with VList _ => true | _ => false end.

Definition is_str (v : pyval) : bool :=
  match v with VStr _ => true | _ => false end.

(** The exception classes of rez.exceptions that _rezapi.py re-exports. *)
Inductive rez_exception : Type :=
| PackageFamilyNotFoundError
| RexUndefinedVariableError
| ResolvedContextError
| RexError
| PackageCommandError
| PackageRequestError
| PackageNotFoundError
| RezError
| SuiteError.

(** Exceptions that occur in the sources. [UserError] is the class created
    in cli.py; [PyException] is a bare [Exception(msg)]; [SystemExit] is
    what [exit(code)] raises. [AttributeError] and [KeyError] carry the
    name that was not found. *)
Inductive exn : Type :=
| Rez (e : rez_exception) (msg : string)
| UserError (msg : string)
| IOError (msg : string)
| ImportError (msg : string)
| ValueError (msg : string)
| IndexError
| KeyError (key : string)
| OverflowError
| StopIteration
| AttributeError (name : string)
| PyException (msg : string)
| SystemExit (code : Z).




(** [isinstance(e, Exception)]: [SystemExit] derives from [BaseException]
    only, so [except Exception] lets it through. *)
Definition is_Exception (e : exn) : bool :=
  match e with SystemExit _ => false | _ => true end.

Definition is_IOError (e : exn) : bool :=
  match e with IOError _ => true | _ => false end.

Definition is_ImportError (e : exn) : bool :=
  match e with ImportError _ => true | _ => false end.

Definition is_ValueError (e : exn) : bool :=
  match e with ValueError _ => true | _ => false end.

(** The outcome of a call: a value, a raised exception, or no return at
    all ([Diverge], for a loop that never ends). *)
Inductive result (A : Type) : Type :=
| Ok (a : A)
| Raise (e : exn)
| Diverge.
Arguments Ok {A} a.
Arguments Raise {A} e.
Arguments Diverge {A}.

Definition bind {A B : Type} (r : result A) (k : A -> result B) : result B :=
  match r with
  | Ok a => k a
  | Raise e => Raise e
  | Diverge => Diverge
  end.

Definition raised {A : Type} (r : result A) : option exn :=
  match r with Raise e => Some e | _ => None end.

(** [l[i]] for a Python list: negative indices count from the end, and an
    index out of range raises [IndexError]. *)
Definition py_index {A : Type} (l : list A) (i : Z) : result A :=
  let n := Z.of_nat (length l) in
  let j := if (i <? 0)%Z then (n + i)%Z else i in
  if ((0 <=? j) && (j <? n))%Z
  then match l !! Z.to_nat j with Some a => Ok a | None => Raise IndexError end
  else Raise IndexError.

(** [sorted(it, key=...)]: Python's sort is stable and compares keys with
    [<] only. An element is placed before the first one it is smaller than,
    hence after every earlier element with an equal key. *)
Fixpoint insert_by {A : Type} (lt : A -> A -> bool) (x : A) (l : list A)
  : list A :=
  match l with
  | [] => [x]
  | y :: l' => if lt x y then x :: y :: l' else y :: insert_by lt x l'
  end.

Definition sorted {A : Type} (lt : A -> A -> bool) (l : list A) : list A :=
  fold_left (fun acc x => insert_by lt x acc) l [].

End Py.

(* ===================================================================== *)
(** * allzpark/_rezapi.py *)
(* ===================================================================== *)

Module Rezapi.
Import Py.

(** A resolved context, as far as the sources look into one. *)
Record ResolvedContext : Type := {
  append_sys_path : bool;
  suite_context_name : option string;
  rxt_environ : list (string * string)
}.

Section Packages.

(** Rez versions are compared by the package manager; [version_lt] is its
    [<] on them. *)
Context {version : Type}.
Variable version_lt : version -> version -> bool.

Record Package : Type := {
  pkg_name : string;
  pkg_version : version;
  pkg_context : option ResolvedContext
}.

(** rez.packages_.iter_packages, imported as [find]: the packages of a
    family within a range, searched in [paths] (the configured package
    paths when [None]), or an exception of the package manager. *)
Variable find :
  string -> option string -> option (list string) -> result (list Package).

Definition by_version (p q : Package) : bool :=
  version_lt (pkg_version p) (pkg_version q).

(** [find_one]: the first package the query yields. *)
Definition find_one (name : string) (range_ : option string)
    (paths : option (list string)) : result Package :=
  bind (find name range_ paths) (fun it =>
    match it with
    | p :: _ => Ok p
    | [] => Raise StopIteration
    end).

(** [find_latest]: the query is made with [name] and [range_] only, so
    [find] sees its own default for the third argument. *)
Definition find_latest (name : string) (range_ : option string)
    (paths : option (list string)) : result Package :=
  bind (find name range_ None) (fun it =>
    let it := sorted by_version it in
    match py_index it (-1) with
    | Ok p => Ok p
    | Raise IndexError =>
        Raise (Rez PackageNotFoundError
                   ("package family not found: " ++ name))
    | r => r
    end).

Definition is_from_suite (package : Package) : bool :=
  match pkg_context package with
  | Some c =>
      match suite_context_name c with
      | Some n => negb (String.eqb n "")
      | None => false
      end
  | None => false
  end.

End Packages.

(** ** Request keys and applications *)

(** [s[n:]] *)
Fixpoint str_drop (n : nat) (s : string) : string :=
  match n, s with
  | O, _ => s
  | S n', String _ s' => str_drop n' s'
  | S _, EmptyString => EmptyString
  end.

(** [s.split(sep, 1)] for a separator that is not empty: the text before
    and after the first occurrence of [sep], or [None] when [sep] does not
    occur and the result is the one-element list [[s]]. *)
Fixpoint split_once (sep s : string) : option (string * string) :=
  if String.prefix sep s then Some ("", str_drop (String.length sep) s)
  else match s with
       | EmptyString => None
       | String c s' =>
           match split_once sep s' with
           | Some (before, after) => Some (String c before, after)
           | None => None
           end
       end.

(** An entry of a suite's tools, as [uni_request_key] indexes it. *)
Record ToolEntry : Type := {
  tool_alias : string;
  context_name : string
}.

Section Apps.

Context {version : Type}.

(** [str(package.version)] and [getattr(package, "tools", None)] *)
Variable version_str : version -> string.
Variable tools_attr : @Package version -> option (list string).

Definition uni_request_key (package : Package) (tool_entry : option ToolEntry)
  : string :=
  let app_request :=
    pkg_name package ++ "==" ++ version_str (pkg_version package) in
  match tool_entry with
  | Some entry =>
      let prefix_ := tool_alias entry ++ "::" ++ context_name entry ++ "::" in
      prefix_ ++ app_request
  | None => app_request
  end.

Record RezApp : Type := {
  _package : @Package version;
  _tools : list string;
  _in_suite : bool;
  _uni_request_key : string
}.

(** [RezApp.__init__]. Unpacking the split into two names raises
    [ValueError] when it has one element. *)
Definition RezApp_init (package : Package) (app_request : string)
  : result RezApp :=
  let in_suite := is_from_suite package in
  bind (if in_suite then
          match split_once "::" app_request with
          | Some (alias, _) => Ok [alias]
          | None =>
              Raise (ValueError
                       "not enough values to unpack (expected 2, got 1)")
          end
        else
          match tools_attr package with
          | Some (tool :: more) => Ok (tool :: more)
          | Some [] | None => Ok [pkg_name package]
          end)
       (fun tools =>
          Ok {| _package := package;
                _tools := tools;
                _in_suite := in_suite;
                _uni_request_key := app_request |}).

End Apps.

(** No colon in a string. *)
Definition no_colon (s : string) : bool :=
  forallb (fun c => negb (Ascii.eqb c ":"%char)) (list_ascii_of_string s).

End Rezapi.

(* ===================================================================== *)
(** * allzpark/resources.py *)
(* ===================================================================== *)

Module Resources.
Import Py.

(** What [QtGui.QPixmap(fname)] builds: a pixmap that remembers the file it
    was read from. *)
Inductive QPixmap : Type := MkQPixmap (fname : string).

(** The module-level [_cache] together with a log of the file names handed
    to the [QPixmap] constructor so far. *)
Record store : Type := {
  _cache : gmap (list string) QPixmap;
  constructed : list string
}.

Definition empty_store : store := {| _cache := ∅; constructed := [] |}.

(** The two characters of [s.replace(backslash, slash)] *)
Definition backslash : ascii := ascii_of_nat 92.
Definition slash : ascii := ascii_of_nat 47.

Fixpoint replace_backslash (s : string) : string :=
  match s with
  | EmptyString => EmptyString
  | String c s' =>
      String (if Ascii.eqb c backslash then slash else c)
             (replace_backslash s')
  end.

Section Paths.

(** The directory of resources.py and the three functions of [os.path]
    the module calls. *)
Variable dirname : string.
Variable os_path_join : string -> list string -> string.
Variable os_path_normpath : string -> string.
Variable os_path_splitext : string -> string * string.

Definition find (paths : list string) : string :=
  let fname := os_path_join dirname ("resources" :: paths) in
  let fname := os_path_normpath fname in
  replace_backslash fname.

(** [pixmap] on the tuple [paths]. The local [path] receives the ".png"
    suffix when the base name has no extension, and is not read
    afterwards. *)
Definition pixmap (paths : list string) (st : store)
  : result QPixmap * store :=
  let path := find paths in
  match py_index paths (-1) with
  | Raise e => (Raise e, st)
  | Diverge => (Diverge, st)
  | Ok basename =>
      let '(name, ext) := os_path_splitext basename in
      let path := if String.eqb ext "" then path ++ ".png" else path in
      match _cache st !! paths with
      | Some pm => (Ok pm, st)
      | None =>
          let pm := MkQPixmap (find paths) in
          (Ok pm,
           {| _cache := <[paths := pm]> (_cache st);
              constructed := constructed st ++ [find paths] |})
      end
  end.

(** Every cached pixmap was read from the file [find] names for its
    key. *)
Definition cache_ok (st : store) : Prop :=
  forall paths pm, _cache st !! paths = Some pm -> pm = MkQPixmap (find paths).

(** The store after a sequence of calls of [pixmap], from a fresh
    module. *)
Definition after_calls (calls : list (list string)) : store :=
  fold_left (fun st paths => snd (pixmap paths st)) calls empty_store.

End Paths.

(** ** Palettes *)

(** A Python dict in insertion order. Keys are compared with [==]. *)
Definition dict (V : Type) : Type := list (pyval * V).

Fixpoint dict_set {V : Type} (k : pyval) (v : V) (d : dict V) : dict V :=
  match d with
  | [] => [(k, v)]
  | (k', v') :: d' =>
      if py_eq k' k then (k', v) :: d' else (k', v') :: dict_set k v d'
  end.

(** [d.update(other)] for a mapping [other]. *)
Definition dict_update {V : Type} (d other : dict V) : dict V :=
  fold_left (fun acc kv => dict_set (fst kv) (snd kv) acc) other d.

Definition keys {V : Type} (d : dict V) : list pyval := map fst d.

(** No two keys of the list are [==]. *)
Fixpoint unique_keys (l : list pyval) : bool :=
  match l with
  | [] => true
  | k :: l' => forallb (fun k' => negb (py_eq k k')) l' && unique_keys l'
  end.

Definition palette : Type := list (string * string).

Definition dark : palette :=
  [ ("brightest", "#403E3D"); ("bright", "#383635"); ("base", "#2E2C2C");
    ("dim", "#21201F"); ("dimmest", "#141413");
    ("highlight", "#69D6C2"); ("highlighted", "#111111");
    ("active", "silver"); ("inactive", "dimGray") ].

Definition light : palette :=
  [ ("brightest", "#E9EAE6"); ("bright", "#DBDFDE"); ("base", "#D7D8D2");
    ("dim", "#B3BABD"); ("dimmest", "#AEAEAF");
    ("highlight", "#69D6C2"); ("highlighted", "#111111");
    ("active", "black"); ("inactive", "darkSlateGray") ].

(** [load_palettes()]. The argument is [allzparkconfig.palettes]: [None]
    when the attribute holds [None], otherwise the items of the mapping it
    holds. An empty mapping is falsy and skipped like [None]. *)
Definition load_palettes (config_palettes : option (dict palette))
  : dict palette :=
  let palettes := [ (VStr "dark", dark); (VStr "light", light) ] in
  match config_palettes with
  | Some (kv :: more) => dict_update palettes (kv :: more)
  | Some [] | None => palettes
  end.

(** [d[k]], [None] standing for [KeyError]. *)
Fixpoint dict_get {V : Type} (k : pyval) (d : dict V) : option V :=
  match d with
  | [] => None
  | (k', v) :: d' => if py_eq k' k then Some v else dict_get k d'
  end.

(** The value of the last item with key [k] in a sequence of items. *)
Definition last_item {V : Type} (k : pyval) (items : list (pyval * V))
  : option V :=
  fold_left (fun found kv => if py_eq (fst kv) k then Some (snd kv) else found)
            items None.

(** A key that is [==] to no key of the list. *)
Definition fresh_key (k : pyval) (l : list pyval) : bool :=
  forallb (fun k' => negb (py_eq k' k)) l.

(** A backslash occurs in a string. *)
Definition has_backslash (s : string) : bool :=
  existsb (Ascii.eqb backslash) (list_ascii_of_string s).

End Resources.

(* ===================================================================== *)
(** * allzpark/delegates.py *)
(* ===================================================================== *)

Module Delegates.
Import Py.

(** The roles of the model that [setModelData] reads at an index. *)
Record ModelData : Type := {
  family : string;
  versions : list string;
  default : string
}.

(** The objects a call can reach: the controller, seen through the requests
    its [patch] method received, and the model behind the index. *)
Record heap : Type := {
  ctrl_patched : list string;
  model : ModelData
}.

(** [Package.setModelData(editor, model, index)]; [currentIndex] is
    [editor.currentIndex()]. *)
Definition setModelData (currentIndex : Z) (h : heap) : result unit * heap :=
  let m := model h in
  let package := family m in
  let options := versions m in
  let default_ := default m in
  match py_index options currentIndex with
  | Raise e => (Raise e, h)
  | Diverge => (Diverge, h)
  | Ok version =>
      if String.eqb version "" || String.eqb version default_
      then (Ok tt, h)
      else (Ok tt,
            {| ctrl_patched := ctrl_patched h ++ [package ++ "==" ++ version];
               model := model h |})
  end.

(** A row of the package list: Maya with three versions, 2019 being the
    default. *)
Definition maya_row : heap :=
  {| ctrl_patched := [];
     model := {| family := "maya";
                 versions := ["2018.0.1"; "2019.0.0"; "2020.0.0"];
                 default := "2019.0.0" |} |}.

(** ** The editor and the delegate's own state *)

(** A [QComboBox]: its items and the index of the current one, -1 when
    there is none. *)
Record QComboBox : Type := {
  items : list string;
  currentIndex : Z
}.

(** [QComboBox(parent)] *)
Definition new_QComboBox : QComboBox := {| items := []; currentIndex := -1 |}.

(** [editor.addItems(texts)]: the texts are appended, and a box that was
    empty makes the first of them current. *)
Definition addItems (texts : list string) (editor : QComboBox) : QComboBox :=
  {| items := (items editor ++ texts)%list;
     currentIndex := match items editor, texts with
                     | [], _ :: _ => 0%Z
                     | _, _ => currentIndex editor
                     end |}.

Definition setCurrentIndex (i : Z) (editor : QComboBox) : QComboBox :=
  {| items := items editor; currentIndex := i |}.

(** [l.index(x)]: the position of the first element equal to [x]. *)
Fixpoint list_index (x : string) (l : list string) : option nat :=
  match l with
  | [] => None
  | y :: l' => if String.eqb y x then Some O else S <$> list_index x l'
  end.

(** The signals of the delegate. *)
Inductive signal : Type :=
| editor_created
| editor_closed (changed : bool).

(** The attributes of a [Package] delegate and the signals it emitted. *)
Record delegate : Type := {
  _changed : bool;
  _default : option string;
  emitted : list signal
}.

(** [Package.__init__] *)
Definition new_Package : delegate :=
  {| _changed := true; _default := None; emitted := [] |}.

(** The slot connected to [closeEditor] *)
Definition on_close_editor (d : delegate) : delegate :=
  {| _changed := _changed d; _default := _default d;
     emitted := (emitted d ++ [editor_closed (_changed d)])%list |}.

(** [createEditor]: an editor for the version column only. *)
Definition createEditor (column : Z) : option QComboBox :=
  if negb (column =? 1)%Z then None else Some new_QComboBox.

(** The slot connected to [editor.textActivated] *)
Definition on_text_activated (text : string) (d : delegate) : delegate :=
  {| _changed := match _default d with
                 | Some default_ => String.eqb text default_
                 | None => false
                 end;
     _default := _default d;
     emitted := emitted d |}.

Section Editor.

(** [repr(text)]: how the interpreter writes a string into the message of
    the [ValueError] of [list.index]. *)
Variable repr : string -> string.

(** [setEditorData(editor, index)]; [display] is
    [index.data(QtCore.Qt.DisplayRole)]. *)
Definition setEditorData (editor : QComboBox) (m : ModelData)
    (display : string) (d : delegate)
  : result unit * QComboBox * delegate :=
  let options := versions m in
  let default_ := display in
  let editor := addItems options editor in
  match list_index default_ options with
  | None =>
      (Raise (ValueError (repr default_ ++ " is not in list")), editor, d)
  | Some i =>
      (Ok tt,
       setCurrentIndex (Z.of_nat i) editor,
       {| _changed := _changed d;
          _default := Some default_;
          emitted := (emitted d ++ [editor_created])%list |})
  end.

End Editor.

(** [repr] of a text that holds no quote, no backslash and no control
    character. *)
Definition quoted (text : string) : string := "'" ++ text ++ "'".

End Delegates.

(* ===================================================================== *)
(** * tests/util.py *)
(* ===================================================================== *)

Module TestUtil.
Import Py.

(** An emission of the awaited signal: the time in milliseconds after the
    call of [wait] at which the event loop delivers it, and the value it
    carries. Emissions are listed in the order of delivery. *)
Definition emission : Type := (Z * pyval)%type.

(** The two slots [wait] chooses between. A slot returns [true] when it
    quits the loop and clears the timeout flag. *)
Definition trigger (on_value : pyval) : pyval -> bool :=
  if truthy on_value
  then fun value => py_eq value on_value
  else fun _ => true.

(** The range of the C [int] that [QTimer.singleShot] takes its interval
    as. *)
Definition INT_MIN : Z := (-2147483648)%Z.
Definition INT_MAX : Z := 2147483647%Z.

(** [QtCore.QTimer.singleShot(timeout, loop.quit)]: the interval at which
    the timer quits the loop. An interval outside the range of a C [int]
    cannot be converted and raises [OverflowError]; Qt refuses a negative
    interval with a warning and arms no timer. *)
Definition singleShot (timeout : Z) : result (option Z) :=
  if ((timeout <? INT_MIN) || (INT_MAX <? timeout))%Z then Raise OverflowError
  else if (timeout <? 0)%Z then Ok None
  else Ok (Some timeout).

(** [loop.exec_()]: events are handled one at a time until a handler quits
    the loop; [timer] is the interval of the single-shot timer, if one is
    armed. The result is the final [state["timeout"]]. A loop that nothing
    quits does not return. *)
Fixpoint exec_ (slot : pyval -> bool) (timer : option Z)
    (events : list emission) : result bool :=
  match events with
  | [] => match timer with
          | Some _ => Ok true
          | None => Diverge
          end
  | (t, value) :: rest =>
      if match timer with
         | Some timeout => (timeout <=? t)%Z
         | None => false
         end
      then Ok true
      else if slot value then Ok false
      else exec_ slot timer rest
  end.

(** [wait(signal, on_value=None, timeout=1000)] *)
Definition wait (signal : list emission) (on_value : pyval) (timeout : Z)
  : result unit :=
  bind (singleShot timeout) (fun timer =>
  bind (exec_ (trigger on_value) timer signal) (fun state_timeout =>
  if (state_timeout : bool)
  then Raise (PyException "Signal waiting timeout.")
  else Ok tt)).

(** The signal fires within the timeout with a value that matches
    [on_value]; every value matches when [on_value] is not given. *)
Definition fires (signal : list emission) (on_value : pyval) (timeout : Z)
  : bool :=
  existsb (fun ev : emission =>
             (fst ev <? timeout)%Z &&
             match on_value with
             | VNone => true
             | _ => py_eq (snd ev) on_value
             end) signal.

End TestUtil.

(* ===================================================================== *)
(** * allzpark/cli.py *)
(* ===================================================================== *)

Module Cli.
Import Py.
Import Rezapi.

(** ** Strings *)

(** [s * n] *)
Fixpoint str_repeat (s : string) (n : nat) : string :=
  match n with
  | O => ""
  | S n' => s ++ str_repeat s n'
  end.

Definition newline : string := String (ascii_of_nat 10) "".

(** [s.split(sep)] for a separator of one character: [n] occurrences of the
    separator give [n + 1] pieces, so the result is never empty. *)
Fixpoint split (sep : ascii) (s : string) : list string :=
  match s with
  | EmptyString => [""]
  | String c s' =>
      if Ascii.eqb c sep then "" :: split sep s'
      else match split sep s' with
           | piece :: pieces => String c piece :: pieces
           | [] => [String c ""]
           end
  end.

(** [sep.join(pieces)] *)
Definition join (sep : ascii) (pieces : list string) : string :=
  String.concat (String sep "") pieces.

(** [x in l] for a list of strings *)
Definition str_in (x : string) (l : list string) : bool :=
  existsb (String.eqb x) l.

(** [str(v)] for the values formatted with [%s] *)
Definition str_of_option (o : option string) : string :=
  match o with Some s => s | None => "None" end.

(** ** Command-line options, as [argparse] returns them *)

Record Opts : Type := {
  verbose : Z;
  version : bool;
  clean : bool;
  config_file : option string;
  no_config : bool;
  demo : bool;
  root : option string
}.

(** ** Observable events of a run, in the order they happen *)

Inductive event : Type :=
| Tell (text : string)                 (* written to sys.stdout *)
| TellElapsed (template : string)      (* a template, filled with a duration *)
| TellTraceback (e : exn)              (* traceback.format_exc() *)
| Warn (text : string)                 (* written to sys.stderr *)
| StdioRedirected                      (* stdio reopened on temporary files *)
| LoggingConfigured (level : Z) (long_format : bool)
| RezImported
| QtImported
| AllzparkImported
| UserConfigLoad (fname : string)      (* _load_userconfig opens the file *)
| SigintDefault
| SettingsOpened
| SettingsCleared
| SetValue (key : string) (value : pyval)
| QApplicationCreated
| ControllerCreated
| StdioWrapped                         (* stdio handed to the controller *)
| ExcepthookInstalled
| WindowShown
| InitScheduled (delay : Z)
| TaskbarCompat
| EventLoopStarted.

(** The dictionary a [timings] block shares with its body. *)
Record message : Type := {
  success : string;
  failure : string;
  ignoreFailure : bool
}.

(** ** The state a run threads through *)

Record state : Type := {
  trace : list event;
  allzparkconfig : gmap string pyval;  (* attributes of the module *)
  os_environ : gmap string string;
  log_level : Z;                       (* log.level *)
  msg : message;                       (* of the enclosing timings block *)
  rez_tools_visibility : string;       (* rez.config.config *)
  catch_rex_errors : bool;
  current : option ResolvedContext;    (* the context loaded from the file *)
  storage : gmap string pyval          (* the QSettings object *)
}.

Definition set_trace (f : list event -> list event) (st : state) : state :=
  {| trace := f (trace st); allzparkconfig := allzparkconfig st;
     os_environ := os_environ st; log_level := log_level st; msg := msg st;
     rez_tools_visibility := rez_tools_visibility st;
     catch_rex_errors := catch_rex_errors st; current := current st;
     storage := storage st |}.

Definition set_allzparkconfig (f : gmap string pyval -> gmap string pyval)
    (st : state) : state :=
  {| trace := trace st; allzparkconfig := f (allzparkconfig st);
     os_environ := os_environ st; log_level := log_level st; msg := msg st;
     rez_tools_visibility := rez_tools_visibility st;
     catch_rex_errors := catch_rex_errors st; current := current st;
     storage := storage st |}.

Definition set_os_environ (f : gmap string string -> gmap string string)
    (st : state) : state :=
  {| trace := trace st; allzparkconfig := allzparkconfig st;
     os_environ := f (os_environ st); log_level := log_level st;
     msg := msg st; rez_tools_visibility := rez_tools_visibility st;
     catch_rex_errors := catch_rex_errors st; current := current st;
     storage := storage st |}.

Definition set_log_level (l : Z) (st : state) : state :=
  {| trace := trace st; allzparkconfig := allzparkconfig st;
     os_environ := os_environ st; log_level := l; msg := msg st;
     rez_tools_visibility := rez_tools_visibility st;
     catch_rex_errors := catch_rex_errors st; current := current st;
     storage := storage st |}.

Definition set_msg (f : message -> message) (st : state) : state :=
  {| trace := trace st; allzparkconfig := allzparkconfig st;
     os_environ := os_environ st; log_level := log_level st;
     msg := f (msg st); rez_tools_visibility := rez_tools_visibility st;
     catch_rex_errors := catch_rex_errors st; current := current st;
     storage := storage st |}.

Definition set_rez_tools_visibility (v : string) (st : state) : state :=
  {| trace := trace st; allzparkconfig := allzparkconfig st;
     os_environ := os_environ st; log_level := log_level st; msg := msg st;
     rez_tools_visibility := v;
     catch_rex_errors := catch_rex_errors st; current := current st;
     storage := storage st |}.

Definition set_catch_rex_errors (b : bool) (st : state) : state :=
  {| trace := trace st; allzparkconfig := allzparkconfig st;
     os_environ := os_environ st; log_level := log_level st; msg := msg st;
     rez_tools_visibility := rez_tools_visibility st;
     catch_rex_errors := b; current := current st;
     storage := storage st |}.

Definition set_current (c : option ResolvedContext) (st : state) : state :=
  {| trace := trace st; allzparkconfig := allzparkconfig st;
     os_environ := os_environ st; log_level := log_level st; msg := msg st;
     rez_tools_visibility := rez_tools_visibility st;
     catch_rex_errors := catch_rex_errors st; current := c;
     storage := storage st |}.

Definition set_storage (f : gmap string pyval -> gmap string pyval)
    (st : state) : state :=
  {| trace := trace st; allzparkconfig := allzparkconfig st;
     os_environ := os_environ st; log_level := log_level st; msg := msg st;
     rez_tools_visibility := rez_tools_visibility st;
     catch_rex_errors := catch_rex_errors st; current := current st;
     storage := f (storage st) |}.

(** ** Computations over the state that may raise *)

Definition M (A : Type) : Type := state -> result A * state.

#[export] Instance M_ret : MRet M := fun A a st => (Ok a, st).

#[export] Instance M_bind : MBind M := fun A B k m st =>
  match m st with
  | (Ok a, st') => k a st'
  | (Raise e, st') => (Raise e, st')
  | (Diverge, st') => (Diverge, st')
  end.

Definition raise {A : Type} (e : exn) : M A := fun st => (Raise e, st).

Definition lift {A : Type} (r : result A) : M A := fun st => (r, st).

Definition get : M state := fun st => (Ok st, st).

Definition modify (f : state -> state) : M unit := fun st => (Ok tt, f st).

Definition emit (e : event) : M unit :=
  modify (set_trace (fun t => (t ++ [e])%list)).

(** [exit(code)] *)
Definition exit {A : Type} (code : Z) : M A := raise (SystemExit code).

(** [try: body except <handles>: handler]. A handler sees only exceptions
    of its class; anything else, and a body that does not return, goes
    on. *)
Definition try_except {A : Type} (body : M A) (handles : exn -> bool)
    (handler : exn -> M A) : M A := fun st =>
  match body st with
  | (Raise e, st') => if handles e then handler e st' else (Raise e, st')
  | other => other
  end.

(** [try: body finally: cleanup] *)
Definition try_finally {A : Type} (body : M A) (cleanup : M unit) : M A :=
  fun st =>
  match body st with
  | (Diverge, st') => (Diverge, st')
  | (r, st') =>
      match cleanup st' with
      | (Ok _, st'') => (r, st'')
      | (Raise e, st'') => (Raise e, st'')
      | (Diverge, st'') => (Diverge, st'')
      end
  end.

Definition tell (text : string) (newlines : nat) : M unit :=
  emit (Tell (text ++ str_repeat newline newlines)).

Definition warn (text : string) (newlines : nat) : M unit :=
  emit (Warn (text ++ str_repeat newline newlines)).

(** logging levels *)
Definition DEBUG : Z := 10.
Definition INFO : Z := 20.
Definition WARNING : Z := 30.

(** ** The world a run takes place in

    Everything [main] obtains from outside the repository: the command
    line, the interpreter, the file system, what importing Rez and Qt
    yields, and the outcome of the calls into them. *)

Record DemoInfo : Type := {
  demo_rezconfig : string;
  demo_allzparkconfig : string
}.

Record RezInfo : Type := {
  rez_location : string;               (* rez.__file__ *)
  rez_version : string;
  packages_path : list string;         (* config.packages_path *)
  local_packages_path : string;
  release_packages_path : string
}.

Record QtInfo : Type := {
  binding : string;                    (* Qt.__binding__ *)
  qt_version : string;                 (* Qt.__qt_version__ *)
  binding_version : string             (* Qt.__binding_version__ *)
}.

Record World : Type := {
  opts : Opts;
  stdout_present : bool;               (* sys.stdout is not None *)
  allzpark_version : string;
  sys_executable : string;
  sys_version_info : list string;      (* str of each component *)
  os_name : string;
  pathsep : ascii;
  platform_windows : bool;             (* system.platform == "windows" *)
  home_config : string;                (* expanduser("~/allzparkconfig.py") *)
  os_path_dirname : string -> string;
  os_path_join : string -> string -> string;
  os_listdir : string -> result (list string);
  os_path_exists : string -> bool;
  import_allzparkdemo : option DemoInfo;
  import_rez : option RezInfo;
  import_Qt : option QtInfo;
  import_allzpark : result unit;       (* view, control, resources, util *)
  import_localz : bool;
  system_rez_bin_path : option string;
  mocked_rez_bin_path : string -> result (option string);
  inherit_parent_environment : bool;
  shell_environment : result (gmap string string);
  ResolvedContext_load : string -> result ResolvedContext;
  get_environ : ResolvedContext -> string -> result (gmap string string);
  exec_config : string -> result (gmap string pyval);
  settings_readable : bool;            (* storage.value does not raise *)
  settings_fileName : string;
  new_Controller : result unit;
  new_Window : result unit;
  str_format : string -> option exn    (* see [format_raises] below *)
}.

Section Run.

Variable w : World.

(** [os.getenv(key, default)] *)
Definition getenv (key : string) (default : string) : M string :=
  st ← get; mret (match os_environ st !! key with
                  | Some v => v
                  | None => default
                  end).

(** [dir(allzparkconfig)]: the attribute names, sorted. *)
Definition dir (module : gmap string pyval) : list string :=
  sorted String.ltb (map fst (map_to_list module)).

Definition dunder (key : string) : bool := String.prefix "__" key.

(** *** [timings] *)

(** A text without a brace. *)
Definition no_brace (s : string) : bool :=
  forallb (fun c => negb (Ascii.eqb c "{"%char || Ascii.eqb c "}"%char))
          (list_ascii_of_string s).

(** A template whose only braces, if it has any, are those of one field
    "{:.2f}". *)
Fixpoint one_field (template : string) : bool :=
  if String.prefix "{:.2f}" template
  then no_brace (str_drop 6 template)
  else match template with
       | EmptyString => true
       | String c rest =>
           negb (Ascii.eqb c "{"%char || Ascii.eqb c "}"%char)
           && one_field rest
       end.

(** What [template.format(duration)] raises, if anything. A template with
    no brace but those of one field "{:.2f}" is filled in. For any other
    template the formatter of the interpreter decides: [str_format w] is
    its verdict, such as [KeyError] for a field with a name and
    [ValueError] for a brace without its partner. *)
Definition format_raises (template : string) : option exn :=
  if one_field template then None else str_format w template.

(** The context manager announces the step, runs the body of the [with]
    block and reports. An [Exception] raised by the body is reported and
    replaced by [exit(1)]. When the body returns, the success text is
    formatted in the [else] branch, outside the reach of the handler. *)
Definition timings {A : Type} (title : string) (timing : bool) (body : M A)
  : M A :=
  tell title 0;;
  modify (set_msg (fun _ =>
    {| success := if timing then "ok - {:.2f}" ++ newline else "ok" ++ newline;
       failure := "fail" ++ newline;
       ignoreFailure := false |}));;
  a ← try_except body is_Exception (fun e =>
         st ← get;
         tell (failure (msg st)) 0;;
         (if (log_level st <? WARNING)%Z
          then emit (TellTraceback e)
          else tell "Pass --verbose for details" 1);;
         exit 1);
  st ← get;
  match format_raises (success (msg st)) with
  | Some e => raise e
  | None => emit (TellElapsed (success (msg st)))
  end;;
  mret a.

(** *** [_load_userconfig] *)

Definition _load_userconfig (fname : option string) : M string :=
  fname ← match fname with
          | Some f => if String.eqb f ""
                      then getenv "ALLZPARK_CONFIG_FILE" (home_config w)
                      else mret f
          | None => getenv "ALLZPARK_CONFIG_FILE" (home_config w)
          end;
  emit (UserConfigLoad fname);;
  (* except IOError: raise / except Exception: raise UserError(...) *)
  defined ← try_except (lift (exec_config w fname)) is_Exception
             (fun e => if is_IOError e then raise e
                       else raise (UserError
                              "Better double-check your user config"));
  let mod_ := defined ∪ {[ "__file__" := VStr fname ]} in
  st ← get;
  modify (set_allzparkconfig (fun module =>
    fold_left (fun module key =>
                 if dunder key then module
                 else match mod_ !! key with
                      | Some value => <[key := value]> module
                      | None => module
                      end)
              (dir (allzparkconfig st)) module));;
  mret fname.

(** *** [_backwards_compatibility] *)

Definition _backwards_compatibility : M unit :=
  modify (set_allzparkconfig (fun module =>
    let module := match module !! "projects" with
                  | Some v => <["profiles" := v]> module
                  | None => module
                  end in
    match module !! "startup_project" with
    | Some v => <["startup_profile" := v]> module
    | None => module
    end)).

(** *** [_patch_allzparkconfig] *)

Definition _patch_allzparkconfig : M unit :=
  st ← get;
  modify (set_allzparkconfig (fun module =>
    fold_left (fun module member =>
                 if dunder member then module
                 else match module !! member with
                      | Some v => <["_" ++ member := v]> module
                      | None => module
                      end)
              (dir (allzparkconfig st)) module)).

(** *** [_find_rez_bin_in_context]

    The [while True] loop, with a bound on the number of rounds; a search
    that outlasts the bound is reported as [Diverge]. *)

Definition bin_dir : string :=
  if platform_windows w then "Scripts" else "bin".

Definition feature : list string :=
  if platform_windows w
  then ["activate"; "rez"; "pip.exe"; "python.exe"]
  else ["activate"; "rez"; "pip"; "python"].

Definition validate (path : string) : bool :=
  os_path_exists w (os_path_join w path ".rez_production_install").

Fixpoint search_rez_bin (rounds : nat) (current : string)
  : result (option string) :=
  match rounds with
  | O => Diverge
  | S rounds' =>
      bind (os_listdir w current) (fun entries =>
        if negb (str_in bin_dir entries) then
          let parent_dir := os_path_dirname w current in
          if String.eqb current parent_dir then Ok None
          else search_rez_bin rounds' parent_dir
        else
          let found := os_path_join w current bin_dir in
          bind (os_listdir w found) (fun content =>
            let bin_path := os_path_join w found "rez" in
            if forallb (fun f => str_in f content) feature
               && validate bin_path
            then Ok (Some bin_path)
            else search_rez_bin rounds' current))
  end.

Definition _find_rez_bin_in_context (rounds : nat) (rez_used : string)
  : M (option string) :=
  lift (search_rez_bin rounds (os_path_dirname w rez_used)).

(** *** [_patch_rez_bin_path] *)

Definition _patch_rez_bin_path (rounds : nat) : M (option string) :=
  st ← get;
  let rez_bin_path := system_rez_bin_path w in
  match rez_bin_path with
  | Some (String _ _) => mret (Some "running in production install.")
  | _ =>
      match os_environ st !! "REZ_USED" with
      | Some rez_used =>
          found_in_resolved ← _find_rez_bin_in_context rounds rez_used;
          match found_in_resolved with
          | Some (String c p) =>
              (* the module root is mocked, the cached property
                 recomputed, and the root restored *)
              lift (mocked_rez_bin_path w (String c p))
          | _ => mret (Some "rez binary path not found.")
          end
      | None => mret (Some "not in a resolved context.")
      end
  end.

(** *** [_resolve_native_environ] *)

(** The part of the inherited environment that the context did not
    contribute: per variable, the paths absent from the context's value. *)
Definition rollback (history changed : gmap string string)
  : gmap string string :=
  map_imap (fun key value =>
    let changed_paths := split (pathsep w) value in
    let history_paths :=
      split (pathsep w) (default "" (history !! key)) in
    let roll_paths :=
      List.filter (fun path => negb (str_in path history_paths))
                  changed_paths in
    match roll_paths with
    | [] => None
    | _ => Some (join (pathsep w) roll_paths)
    end) changed.

Definition with_append_sys_path (b : bool) (c : ResolvedContext)
  : ResolvedContext :=
  {| append_sys_path := b;
     suite_context_name := suite_context_name c;
     rxt_environ := rxt_environ c |}.

(** [with exclude_rez_bin_path(): body] *)
Definition exclude_rez_bin_path {A : Type} (body : M A) : M A :=
  st ← get;
  let mode := rez_tools_visibility st in
  try_finally (modify (set_rez_tools_visibility "never");; body)
              (modify (set_rez_tools_visibility mode)).

Definition _resolve_native_environ : M (option (gmap string string)) :=
  if negb (inherit_parent_environment w) then
    env ← lift (shell_environment w); mret (Some env)
  else
    st ← get;
    match os_environ st !! "REZ_RXT_FILE" with
    | None | Some EmptyString => mret None
    | Some rxt =>
        loaded ← lift (ResolvedContext_load w rxt);
        let cur := with_append_sys_path false loaded in
        modify (set_current (Some cur));;
        exclude_rez_bin_path (
          st ← get;
          history ← lift (get_environ w cur (rez_tools_visibility st));
          let changed := os_environ st in
          mret (Some (rollback history changed)))
    end.

(** *** [main]

    The body of [main] in the order of the source, cut into the steps
    its boot messages announce. Each step hands the locals it binds to
    the ones after it. *)

Definition setattr (name : string) (value : pyval) : M unit :=
  modify (set_allzparkconfig (<[name := value]>)).

Definition set_success (text : string) : M unit :=
  modify (set_msg (fun m =>
    {| success := text; failure := failure m;
       ignoreFailure := ignoreFailure m |})).

Definition set_failure (text : string) : M unit :=
  modify (set_msg (fun m =>
    {| success := success m; failure := text;
       ignoreFailure := ignoreFailure m |})).

(** [storage.setValue(key, value)] *)
Definition setValue (key : string) (value : pyval) : M unit :=
  emit (SetValue key value);;
  modify (set_storage (<[key := value]>)).

(** [for key, value in items: storage.setValue(key, value)] *)
Fixpoint setValues (items : list (string * pyval)) : M unit :=
  match items with
  | [] => mret tt
  | (key, value) :: items' => setValue key value;; setValues items'
  end.

(** A console-less session: stdio is reopened on files and the run is
    made verbose. Yields [opts.verbose]. *)
Definition boot_console : M Z :=
  if stdout_present w then mret (verbose (opts w))
  else
    emit StdioRedirected;;
    setattr "__noconsole__" (VBool true);;
    mret 3%Z.

Definition boot_banner : M unit :=
  (if version (opts w)
   then tell (allzpark_version w) 1;; exit 0
   else mret tt);;
  tell (str_repeat "=" 30) 1;;
  tell (" allzpark (" ++ allzpark_version w ++ ")") 1;;
  tell (str_repeat "=" 30) 1.

Definition boot_logging (verbose : Z) : M unit :=
  let level := if (2 <=? verbose)%Z then DEBUG
               else if (verbose =? 1)%Z then INFO
               else WARNING in
  emit (LoggingConfigured level (negb (verbose =? 0)%Z));;
  modify (set_log_level level).

(** Yields [opts.config_file]. *)
Definition boot_demo : M (option string) :=
  if demo (opts w) then
    allzparkdemo ← timings "- Loading demo.." true (
      allzparkdemo ← try_except
        (match import_allzparkdemo w with
         | Some d => mret d
         | None => raise (ImportError "No module named allzparkdemo")
         end)
        is_ImportError
        (fun e =>
           set_failure (" fail" ++ newline ++
             "ERROR: The --demo flag requires allzparkdemo, " ++
             "try running `pip install allzparkdemo`" ++ newline);;
           raise e);
      modify (set_os_environ
                (<["REZ_CONFIG_FILE" := demo_rezconfig allzparkdemo]>));;
      mret allzparkdemo);
    tell ("  - " ++ demo_rezconfig allzparkdemo) 1;;
    tell ("  - " ++ demo_allzparkconfig allzparkdemo) 1;;
    mret (Some (demo_allzparkconfig allzparkdemo))
  else mret (config_file (opts w)).

Definition boot_rez : M RezInfo :=
  timings "- Loading Rez.. " true (
    try_except
      (match import_rez w with
       | Some rez =>
           emit RezImported;;
           set_success ("(" ++ rez_version rez ++ ") - ok {:.2f}" ++ newline);;
           mret rez
       | None => raise (ImportError "No module named rez")
       end)
      is_ImportError
      (fun _ => tell "ERROR: allzpark requires rez" 1;; exit 1)).

Definition boot_rez_bin_path (rounds : nat) : M unit :=
  timings "    + Patching Rez Binary Path.. " true (
    res ← _patch_rez_bin_path rounds;
    set_success ("ok {:.2f} (" ++ str_of_option res ++ ")" ++ newline)).

(** Yields [native_environ]. *)
Definition boot_native_environ : M (gmap string string) :=
  timings "    + Resolving Native Environment.. " true (
    res ← _resolve_native_environ;
    st ← get;
    let solved := match res with
                  | Some env => negb (bool_decide (env = ∅))
                  | None => false
                  end in
    let native_environ := match res with
                          | Some env => if solved then env else os_environ st
                          | None => os_environ st
                          end in
    set_success ("ok {:.2f} (" ++ (if solved then "solved" else "skipped")
                 ++ ")" ++ newline);;
    mret native_environ).

Definition boot_qt : M QtInfo :=
  timings "- Loading Qt.. " true (
    match import_Qt w with
    | Some Qt =>
        emit QtImported;;
        set_success ("(" ++ binding Qt ++ " - " ++ qt_version Qt
                     ++ ") - ok {:.2f}" ++ newline);;
        mret Qt
    | None =>
        (* the first import is guarded, the ones after it are not *)
        set_failure
          ("ERROR: allzpark requires a Python binding for Qt," ++ newline ++
           "such as PySide, PySide2, PyQt4 or PyQt5." ++ newline);;
        raise (ImportError "No Qt binding were found")
    end).

Definition boot_allzpark : M unit :=
  timings "- Loading allzpark.. " true (
    lift (import_allzpark w);;
    emit AllzparkImported;;
    set_success ("(" ++ allzpark_version w ++ ") - ok {:.2f}" ++ newline)).

Definition boot_userconfig (config_file : option string) : M unit :=
  timings "- Loading allzparkconfig.. " true (
    try_except
      (result ← _load_userconfig config_file;
       set_success ("ok {:.2f} (" ++ result ++ ")" ++ newline))
      is_IOError
      (fun _ => mret tt)).

(** [if allzparkconfig.<name>: storage.setValue(key, ...)] *)
Definition store_startup (name key : string) : M unit :=
  st ← get;
  match allzparkconfig st !! name with
  | Some value => if truthy value then setValue key value else mret tt
  | None => raise (AttributeError name)
  end.

Definition defaults (rez : RezInfo) (Qt : QtInfo) (st : state)
  : list (string * pyval) :=
  [ ("memcachedURI",
       VStr (default "None" (os_environ st !! "REZ_MEMCACHED_URI")));
    ("pythonExe", VStr (sys_executable w));
    ("pythonVersion", VStr (join "." (sys_version_info w)));
    ("qtVersion", VStr (binding_version Qt));
    ("qtBinding", VStr (binding Qt));
    ("qtBindingVersion", VStr (qt_version Qt));
    ("rezLocation", VStr (os_path_dirname w (rez_location rez)));
    ("rezVersion", VStr (rez_version rez));
    ("rezConfigFile",
       VStr (default "None" (os_environ st !! "REZ_CONFIG_FILE")));
    ("rezPackagesPath", VList (map VStr (packages_path rez)));
    ("rezLocalPath",
       VList (map VStr (split (pathsep w) (local_packages_path rez))));
    ("rezReleasePath",
       VList (map VStr (split (pathsep w) (release_packages_path rez))));
    ("settingsPath", VStr (settings_fileName w)) ].

Definition boot_preferences (rez : RezInfo) (Qt : QtInfo) : M unit :=
  timings "- Loading preferences.. " true (
    emit SettingsOpened;;
    try_except
      (if settings_readable w then mret tt else raise (ValueError ""))
      is_ValueError
      (fun _ => raise (ValueError
         ("Your settings could not be read, " ++
          "have they been created using a different " ++
          "version of Python? You can either use " ++
          "the same version or pass " ++
          "--clean to erase your previous settings and " ++
          "start anew")));;
    (if clean (opts w)
     then tell "(clean) " 1;;
          emit SettingsCleared;;
          modify (set_storage (fun _ => ∅))
     else mret tt);;
    st ← get;
    setValues (defaults rez Qt st);;
    store_startup "startup_profile" "startupProfile";;
    store_startup "startup_application" "startupApp";;
    (if demo (opts w)
     then setValue "useDevelopmentPackages" (VBool true)
     else mret tt)).

Definition boot_localz : M unit :=
  setattr "_localz_enabled" (VBool (import_localz w)).

(** From the creation of the Qt application to its event loop. The module
    [resources] is the one of this repository, resources.py, which defines
    none of [load_themes], [load_theme] and [format_stylesheet]: looking
    one of them up raises [AttributeError]. *)
Definition boot_gui : M unit :=
  emit QApplicationCreated;;
  lift (new_Controller w);;
  emit ControllerCreated;;
  st ← get;
  (if bool_decide (is_Some (allzparkconfig st !! "__noconsole__"))
   then emit StdioWrapped
   else mret tt);;
  emit ExcepthookInstalled;;
  timings "- Loading themes.. " true (
    @raise unit (AttributeError "load_themes"));;
  lift (new_Window w);;
  originalcss ← @raise string (AttributeError "load_theme");
  user_css ← @raise string (AttributeError "format_stylesheet");
  emit WindowShown;;
  emit (InitScheduled 50);;
  (if String.eqb (os_name w) "nt" then emit TaskbarCompat else mret tt);;
  emit EventLoopStarted.

Definition main (rounds : nat) : M unit :=
  verbose ← boot_console;
  boot_banner;;
  boot_logging verbose;;
  config_file ← boot_demo;
  rez ← boot_rez;
  boot_rez_bin_path rounds;;
  native_environ ← boot_native_environ;
  Qt ← boot_qt;
  boot_allzpark;;
  _patch_allzparkconfig;;
  boot_userconfig config_file;;
  _backwards_compatibility;;
  emit SigintDefault;;
  modify (set_catch_rex_errors false);;
  boot_preferences rez Qt;;
  boot_localz;;
  tell (str_repeat "-" 30) 1;;
  boot_gui.

End Run.

(** The state [main] starts in: nothing printed, the configuration module
    and the process environment as given, the logger and Rez's
    configuration at their defaults, the settings as stored on disk. *)
Definition initial (module : gmap string pyval) (env : gmap string string)
    (settings : gmap string pyval) : state :=
  {| trace := [];
     allzparkconfig := module;
     os_environ := env;
     log_level := 0;
     msg := {| success := ""; failure := ""; ignoreFailure := false |};
     rez_tools_visibility := "append";
     catch_rex_errors := true;
     current := None;
     storage := settings |}.

(** The entries [main] wrote to the settings store during a run. *)
Definition written (t : list event) : list (string * pyval) :=
  omap (fun e => match e with
                 | SetValue key value => Some (key, value)
                 | _ => None
                 end) t.

(** The bootstrap step an event belongs to, for the four steps whose order
    matters: logging, user configuration, Qt application, event loop. *)
Definition stage (e : event) : option nat :=
  match e with
  | LoggingConfigured _ _ => Some 1
  | UserConfigLoad _ => Some 2
  | QApplicationCreated => Some 3
  | EventLoopStarted => Some 4
  | _ => None
  end.

(** What a computation adds to the trace, whatever state it starts in,
    and what holds of its outcome together with the events it added. *)
Definition runs {A : Type} (m : M A) (Q : result A -> list event -> Prop)
  : Prop :=
  forall st, exists l,
    trace (snd (m st)) = (trace st ++ l)%list /\ Q (fst (m st)) l.

(** A computation that goes through the steps [steps] when it returns, and
    through some of them, in order, when it does not. *)
Definition staged {A : Type} (steps : list nat)
  : result A -> list event -> Prop :=
  fun r l =>
    match r with
    | Ok _ => omap stage l = steps
    | _ => omap stage l `prefix_of` steps
    end.

(** A computation all of whose events satisfy [ok]. *)
Definition always (ok : event -> Prop) {A : Type} (m : M A) : Prop :=
  runs m (fun _ l => Forall ok l).

(** An event that neither writes a setting nor belongs to one of the four
    ordered steps. *)
Definition plain (e : event) : Prop :=
  match e with
  | SetValue _ _ | LoggingConfigured _ _ | UserConfigLoad _
  | QApplicationCreated | EventLoopStarted => False
  | _ => True
  end.

(** An event outside the four ordered steps. *)
Definition unstaged (e : event) : Prop := stage e = None.

(** The shape of the entries [main] writes, by key. *)
Definition is_str_list (v : pyval) : bool :=
  match v with
  | VList l => forallb is_str l
  | _ => false
  end.

Definition entry_shape (entry : string * pyval) : bool :=
  let '(key, value) := entry in
  if String.eqb key "rezPackagesPath" || String.eqb key "rezLocalPath"
     || String.eqb key "rezReleasePath"
  then is_str_list value
  else if String.eqb key "startupProfile" || String.eqb key "startupApp"
  then truthy value
  else if String.eqb key "useDevelopmentPackages"
  then match value with VBool b => b | _ => false end
  else is_str value.


(** [sys.excepthook] has been replaced by the controller's handler. *)
Definition hook_installed (t : list event) : bool :=
  existsb (fun e => match e with ExcepthookInstalled => true | _ => false end)
          t.

(** The state in which a [timings] block starts its body: the title is
    written and the message dictionary is new. *)
Definition entered (title : string) (timing : bool) (st : state) : state :=
  set_msg (fun _ =>
    {| success := if timing then "ok - {:.2f}" ++ newline else "ok" ++ newline;
       failure := "fail" ++ newline;
       ignoreFailure := false |})
    (set_trace (fun t => (t ++ [Tell (title ++ str_repeat newline 0)])%list)
       st).

(** What a [timings] block writes about an [Exception] of its body, in the
    state the body left: the failure text, then the traceback or a hint at
    the flag that shows it. *)
Definition failure_report (e : exn) (st : state) : list event :=
  [ Tell (failure (msg st) ++ str_repeat newline 0);
    if (log_level st <? WARNING)%Z then TellTraceback e
    else Tell ("Pass --verbose for details" ++ str_repeat newline 1) ].

(** ** A world to run [main] in

    A workstation with Rez and PySide2 installed, no user configuration
    file, and Allzpark started from a plain shell. None of the texts
    formatted there has a brace of its own, so that the formatter is
    never asked about a template beyond the plain ones. *)

Definition plain_opts : Opts :=
  {| verbose := 0; version := false; clean := false; config_file := None;
     no_config := false; demo := false; root := None |}.

Definition studio_rez : RezInfo :=
  {| rez_location := "/opt/rez/lib/rez/__init__.py";
     rez_version := "2.47.16";
     packages_path := ["/home/ana/packages"; "/studio/packages"];
     local_packages_path := "/home/ana/packages";
     release_packages_path := "/studio/packages:/studio/shared" |}.

Definition studio_qt : QtInfo :=
  {| binding := "PySide2"; qt_version := "5.12.5";
     binding_version := "5.12.6" |}.

Definition studio : World :=
  {| opts := plain_opts;
     stdout_present := true;
     allzpark_version := "1.3.0";
     sys_executable := "/usr/bin/python3";
     sys_version_info := ["3"; "7"; "9"; "final"; "0"];
     os_name := "posix";
     pathsep := ":"%char;
     platform_windows := false;
     home_config := "/home/ana/allzparkconfig.py";
     os_path_dirname := fun _ => "/opt/rez/lib/rez";
     os_path_join := fun a b => a ++ "/" ++ b;
     os_listdir := fun _ => Ok [];
     os_path_exists := fun _ => false;
     import_allzparkdemo := None;
     import_rez := Some studio_rez;
     import_Qt := Some studio_qt;
     import_allzpark := Ok tt;
     import_localz := false;
     system_rez_bin_path := Some "/opt/rez/bin/rez";
     mocked_rez_bin_path := fun _ => Ok None;
     inherit_parent_environment := true;
     shell_environment := Ok ∅;
     ResolvedContext_load := fun _ =>
       Ok {| append_sys_path := true; suite_context_name := None;
             rxt_environ := [] |};
     get_environ := fun _ _ => Ok {[ "PATH" := "/studio/maya/bin" ]};
     exec_config := fun _ => Raise (IOError "No such file or directory");
     settings_readable := true;
     settings_fileName := "/home/ana/.config/Allzpark/preferences.ini";
     new_Controller := Ok tt;
     new_Window := Ok tt;
     str_format := fun _ => None |}.

(** The attributes of allzparkconfig.py that [main] looks at, with the
    values of a fresh installation. *)
Definition fresh_config : gmap string pyval :=
  {[ "profiles" := VList [];
     "startup_profile" := VStr "";
     "startup_application" := VStr "" ]}.

Definition studio_start : state :=
  initial fresh_config {[ "PATH" := "/usr/bin:/bin" ]} ∅.

(** The same workstation with a user configuration file that does not
    compile. *)
Definition with_exec_config (f : string -> result (gmap string pyval))
    (w : World) : World :=
  {| opts := opts w; stdout_present := stdout_present w;
     allzpark_version := allzpark_version w;
     sys_executable := sys_executable w;
     sys_version_info := sys_version_info w; os_name := os_name w;
     pathsep := pathsep w; platform_windows := platform_windows w;
     home_config := home_config w; os_path_dirname := os_path_dirname w;
     os_path_join := os_path_join w; os_listdir := os_listdir w;
     os_path_exists := os_path_exists w;
     import_allzparkdemo := import_allzparkdemo w;
     import_rez := import_rez w; import_Qt := import_Qt w;
     import_allzpark := import_allzpark w; import_localz := import_localz w;
     system_rez_bin_path := system_rez_bin_path w;
     mocked_rez_bin_path := mocked_rez_bin_path w;
     inherit_parent_environment := inherit_parent_environment w;
     shell_environment := shell_environment w;
     ResolvedContext_load := ResolvedContext_load w;
     get_environ := get_environ w;
     exec_config := f;
     settings_readable := settings_readable w;
     settings_fileName := settings_fileName w;
     new_Controller := new_Controller w; new_Window := new_Window w;
     str_format := str_format w |}.


(** Allzpark started from within a resolved context. *)
Definition in_context_start : state :=
  initial fresh_config
    {[ "PATH" := "/studio/maya/bin:/usr/bin:/bin";
       "REZ_RXT_FILE" := "/tmp/rez_context_x1/context.rxt" ]} ∅.

(** A character occurs in a string. *)
Definition str_has (c : ascii) (s : string) : bool :=
  existsb (Ascii.eqb c) (list_ascii_of_string s).

(** One round of the loop of [_patch_allzparkconfig] *)
Definition backup (module : gmap string pyval) (member : string)
  : gmap string pyval :=
  if dunder member then module
  else match module !! member with
       | Some v => <["_" ++ member := v]> module
       | None => module
       end.

(** One round of the loop of [_load_userconfig]; [mod_] is the namespace
    the configuration file was executed in. *)
Definition override (mod_ module : gmap string pyval) (key : string)
  : gmap string pyval :=
  if dunder key then module
  else match mod_ !! key with
       | Some value => <[key := value]> module
       | None => module
       end.

(** The file [_load_userconfig] reads: the one named on the command line,
    else the one ALLZPARK_CONFIG_FILE names, else the one in the home
    directory. *)
Definition config_name (w : World) (fname : option string) (st : state)
  : string :=
  match fname with
  | Some (String c f) => String c f
  | _ => default (home_config w) (os_environ st !! "ALLZPARK_CONFIG_FILE")
  end.

(** The settings after the entries have been written to them in order. *)
Definition store_all (entries : list (string * pyval))
    (settings : gmap string pyval) : gmap string pyval :=
  fold_left (fun s entry => <[fst entry := snd entry]> s) entries settings.

(** The same world with the command line's [--no-config] flag set or
    unset. *)
Definition with_no_config (flag : bool) (w : World) : World :=
  {| opts := {| verbose := verbose (opts w); version := version (opts w);
                clean := clean (opts w);
                config_file := config_file (opts w);
                no_config := flag; demo := demo (opts w);
                root := root (opts w) |};
     stdout_present := stdout_present w;
     allzpark_version := allzpark_version w;
     sys_executable := sys_executable w;
     sys_version_info := sys_version_info w; os_name := os_name w;
     pathsep := pathsep w; platform_windows := platform_windows w;
     home_config := home_config w; os_path_dirname := os_path_dirname w;
     os_path_join := os_path_join w; os_listdir := os_listdir w;
     os_path_exists := os_path_exists w;
     import_allzparkdemo := import_allzparkdemo w;
     import_rez := import_rez w; import_Qt := import_Qt w;
     import_allzpark := import_allzpark w; import_localz := import_localz w;
     system_rez_bin_path := system_rez_bin_path w;
     mocked_rez_bin_path := mocked_rez_bin_path w;
     inherit_parent_environment := inherit_parent_environment w;
     shell_environment := shell_environment w;
     ResolvedContext_load := ResolvedContext_load w;
     get_environ := get_environ w;
     exec_config := exec_config w;
     settings_readable := settings_readable w;
     settings_fileName := settings_fileName w;
     new_Controller := new_Controller w; new_Window := new_Window w;
     str_format := str_format w |}.

(** The same world over another file system. *)
Definition with_files (listdir : string -> result (list string))
    (dirname : string -> string) (exists_ : string -> bool) (w : World)
  : World :=
  {| opts := opts w; stdout_present := stdout_present w;
     allzpark_version := allzpark_version w;
     sys_executable := sys_executable w;
     sys_version_info := sys_version_info w; os_name := os_name w;
     pathsep := pathsep w; platform_windows := platform_windows w;
     home_config := home_config w; os_path_dirname := dirname;
     os_path_join := os_path_join w; os_listdir := listdir;
     os_path_exists := exists_;
     import_allzparkdemo := import_allzparkdemo w;
     import_rez := import_rez w; import_Qt := import_Qt w;
     import_allzpark := import_allzpark w; import_localz := import_localz w;
     system_rez_bin_path := system_rez_bin_path w;
     mocked_rez_bin_path := mocked_rez_bin_path w;
     inherit_parent_environment := inherit_parent_environment w;
     shell_environment := shell_environment w;
     ResolvedContext_load := ResolvedContext_load w;
     get_environ := get_environ w;
     exec_config := exec_config w;
     settings_readable := settings_readable w;
     settings_fileName := settings_fileName w;
     new_Controller := new_Controller w; new_Window := new_Window w;
     str_format := str_format w |}.

(** The studio workstation with a production install of Rez under /rez, a
    plain virtual environment under /venv, and nothing else. *)
Definition studio_files : World :=
  with_files
    (fun d =>
       if String.eqb d "/venv" then Ok ["bin"; "lib"]
       else if String.eqb d "/venv/bin" then Ok ["python"; "pip"]
       else if String.eqb d "/rez" then Ok ["bin"]
       else if String.eqb d "/rez/bin"
       then Ok ["activate"; "pip"; "python"; "rez"]
       else Ok [])
    (fun d => if String.eqb d "/home/ana" then "/home" else "/")
    (fun p => String.eqb p "/rez/bin/rez/.rez_production_install")
    studio.

(** The same world with another command line, and with or without Rez. *)
Definition with_opts (o : Opts) (rez : option RezInfo) (w : World) : World :=
  {| opts := o; stdout_present := stdout_present w;
     allzpark_version := allzpark_version w;
     sys_executable := sys_executable w;
     sys_version_info := sys_version_info w; os_name := os_name w;
     pathsep := pathsep w; platform_windows := platform_windows w;
     home_config := home_config w; os_path_dirname := os_path_dirname w;
     os_path_join := os_path_join w; os_listdir := os_listdir w;
     os_path_exists := os_path_exists w;
     import_allzparkdemo := import_allzparkdemo w;
     import_rez := rez; import_Qt := import_Qt w;
     import_allzpark := import_allzpark w; import_localz := import_localz w;
     system_rez_bin_path := system_rez_bin_path w;
     mocked_rez_bin_path := mocked_rez_bin_path w;
     inherit_parent_environment := inherit_parent_environment w;
     shell_environment := shell_environment w;
     ResolvedContext_load := ResolvedContext_load w;
     get_environ := get_environ w;
     exec_config := exec_config w;
     settings_readable := settings_readable w;
     settings_fileName := settings_fileName w;
     new_Controller := new_Controller w; new_Window := new_Window w;
     str_format := str_format w |}.

(** [allzpark --version] *)
Definition version_opts : Opts :=
  {| verbose := 0; version := true; clean := false; config_file := None;
     no_config := false; demo := false; root := None |}.

(** [allzpark --clean] *)
Definition clean_opts : Opts :=
  {| verbose := 0; version := false; clean := true; config_file := None;
     no_config := false; demo := false; root := None |}.

(** The same world with another formatter. *)
Definition with_str_format (f : string -> option exn) (w : World) : World :=
  {| opts := opts w; stdout_present := stdout_present w;
     allzpark_version := allzpark_version w;
     sys_executable := sys_executable w;
     sys_version_info := sys_version_info w; os_name := os_name w;
     pathsep := pathsep w; platform_windows := platform_windows w;
     home_config := home_config w; os_path_dirname := os_path_dirname w;
     os_path_join := os_path_join w; os_listdir := os_listdir w;
     os_path_exists := os_path_exists w;
     import_allzparkdemo := import_allzparkdemo w;
     import_rez := import_rez w; import_Qt := import_Qt w;
     import_allzpark := import_allzpark w; import_localz := import_localz w;
     system_rez_bin_path := system_rez_bin_path w;
     mocked_rez_bin_path := mocked_rez_bin_path w;
     inherit_parent_environment := inherit_parent_environment w;
     shell_environment := shell_environment w;
     ResolvedContext_load := ResolvedContext_load w;
     get_environ := get_environ w;
     exec_config := exec_config w;
     settings_readable := settings_readable w;
     settings_fileName := settings_fileName w;
     new_Controller := new_Controller w; new_Window := new_Window w;
     str_format := f |}.

(** [allzpark --config-file /home/{ana}/allzparkconfig.py] *)
Definition braces_opts : Opts :=
  {| verbose := 0; version := false; clean := false;
     config_file := Some "/home/{ana}/allzparkconfig.py";
     no_config := false; demo := false; root := None |}.

(** The studio workstation started on a configuration file that exists,
    defines nothing, and has a pair of braces in its path: the success
    text of the step that loads it holds the field "{ana}", which the
    formatter looks up among the keyword arguments it was not given. *)
Definition studio_braces : World :=
  with_str_format
    (fun template =>
       if String.eqb template
            ("ok {:.2f} (/home/{ana}/allzparkconfig.py)" ++ newline)
       then Some (KeyError "ana") else None)
    (with_exec_config (fun _ => Ok ∅)
       (with_opts braces_opts (Some studio_rez) studio)).


(** A computation that leaves a part of the state as it found it. *)
Definition keeps {X A : Type} (part : state -> X) (m : M A) : Prop :=
  forall st, part (snd (m st)) = part st.

End Cli.

(* ===================================================================== *)
(** * Properties *)
(* ===================================================================== *)

Import Py.

(** ** Python lists *)

Lemma py_index_last {A : Type} (l : list A) :
  py_index l (-1) = match last l with
                    | Some a => Ok a
                    | None => Raise IndexError
                    end.
Proof.
  unfold py_index. destruct l as [|a l] using rev_ind.
  - reflexivity.
  - rewrite last_snoc, length_app. simpl.
    replace (Z.of_nat (length l + 1) + -1)%Z with (Z.of_nat (length l)) by lia.
    replace ((0 <=? Z.of_nat (length l))%Z) with true
      by (symmetry; apply Z.leb_le; lia).
    replace ((Z.of_nat (length l) <? Z.of_nat (length l + 1))%Z) with true
      by (symmetry; apply Z.ltb_lt; lia).
    simpl. rewrite Nat2Z.id.
    rewrite lookup_app_r by lia. rewrite Nat.sub_diag. reflexivity.
Qed.

Lemma py_index_raises {A : Type} (l : list A) (i : Z) (e : exn) :
  py_index l i = Raise e -> e = IndexError.
Proof.
  unfold py_index.
  destruct (_ && _); [destruct (l !! _)|]; congruence.
Qed.

Lemma py_index_returns {A : Type} (l : list A) (i : Z) :
  py_index l i <> Diverge.
Proof.
  unfold py_index.
  destruct (_ && _); [destruct (l !! _)|]; congruence.
Qed.

Lemma insert_by_length {A : Type} (lt : A -> A -> bool) (x : A) (l : list A) :
  length (insert_by lt x l) = S (length l).
Proof.
  induction l as [|y l IH]; simpl; [reflexivity|].
  destruct (lt x y); simpl; congruence.
Qed.

Lemma sorted_length {A : Type} (lt : A -> A -> bool) (l : list A) :
  length (sorted lt l) = length l.
Proof.
  unfold sorted.
  assert (H : forall acc,
             length (fold_left (fun acc x => insert_by lt x acc) l acc)
                          = (length l + length acc)%nat).
  { induction l as [|x l IH]; intros acc; simpl; [reflexivity|].
    rewrite IH, insert_by_length. lia. }
  rewrite H. simpl. lia.
Qed.

Lemma insert_by_elem {A : Type} (lt : A -> A -> bool) (x y : A) (l : list A) :
  y ∈ insert_by lt x l <-> y = x \/ y ∈ l.
Proof.
  induction l as [|z l IH]; simpl.
  - rewrite list_elem_of_singleton, elem_of_nil. tauto.
  - destruct (lt x z); rewrite !elem_of_cons; [tauto|].
    rewrite IH. tauto.
Qed.

Lemma sorted_elem {A : Type} (lt : A -> A -> bool) (y : A) (l : list A) :
  y ∈ sorted lt l <-> y ∈ l.
Proof.
  unfold sorted.
  assert (H : forall acc,
             y ∈ fold_left (fun acc x => insert_by lt x acc) l acc
             <-> y ∈ l \/ y ∈ acc).
  { induction l as [|x l IH]; intros acc; simpl.
    - rewrite elem_of_nil. tauto.
    - rewrite IH, insert_by_elem, elem_of_cons. tauto. }
  rewrite H, elem_of_nil. tauto.
Qed.

(** ** _rezapi.py *)

Section RezapiFacts.

Context {version : Type}.
Variable version_lt : version -> version -> bool.
Variable find :
  string -> option string -> option (list string)
  -> result (list (@Rezapi.Package version)).

(** What [find_latest] returns or raises is decided by the query with the
    default paths alone. *)
Lemma find_latest_outcome name range_ paths :
  match find name range_ None with
  | Ok [] =>
      Rezapi.find_latest version_lt find name range_ paths
      = Raise (Rez PackageNotFoundError
                   ("package family not found: " ++ name))
  | Ok it =>
      exists p,
        Rezapi.find_latest version_lt find name range_ paths = Ok p
        /\ p ∈ it
  | Raise e => Rezapi.find_latest version_lt find name range_ paths = Raise e
  | Diverge => Rezapi.find_latest version_lt find name range_ paths = Diverge
  end.
Proof.
  unfold Rezapi.find_latest.
  destruct (find name range_ None) as [it|e|]; simpl; try reflexivity.
  rewrite py_index_last.
  destruct it as [|p it]; [reflexivity|].
  destruct (last (sorted _ (p :: it))) as [q|] eqn:Hlast.
  - exists q. split; [reflexivity|].
    apply (sorted_elem (Rezapi.by_version version_lt)).
    apply last_Some in Hlast as [l' ->].
    apply elem_of_app. right. apply list_elem_of_singleton. reflexivity.
  - apply last_None in Hlast.
    apply (f_equal length) in Hlast. rewrite sorted_length in Hlast.
    discriminate.
Qed.


(** C2: for every family name and version range, and any two values of the
    [paths] argument ([None] included), [find_latest] returns the same
    package or raises the same error. *)
Theorem find_latest_ignores_paths name range_ paths1 paths2 :
  Rezapi.find_latest version_lt find name range_ paths1
  = Rezapi.find_latest version_lt find name range_ paths2.
Proof. unfold Rezapi.find_latest. reflexivity. Qed.

End RezapiFacts.

(** [find_one] forwards [paths]: a query that answers differently for
    different paths makes [find_one] answer differently, while
    [find_latest] keeps asking for the default paths. *)
Example find_one_forwards_paths :
  let pkg v := {| Rezapi.pkg_name := "maya"; Rezapi.pkg_version := v;
                  Rezapi.pkg_context := None |} in
  let find (_ : string) (_ : option string) (paths : option (list string)) :=
    match paths with
    | None => Ok [pkg 2018%Z; pkg 2020%Z; pkg 2019%Z]
    | Some _ => Ok [pkg 2017%Z]
    end in
  Rezapi.find_one find "maya" None None = Ok (pkg 2018%Z)
  /\ Rezapi.find_one find "maya" None (Some ["/pkgs"]) = Ok (pkg 2017%Z)
  /\ Rezapi.find_latest Z.ltb find "maya" None None = Ok (pkg 2020%Z)
  /\ Rezapi.find_latest Z.ltb find "maya" None (Some ["/pkgs"])
     = Ok (pkg 2020%Z).
Proof. repeat split. Qed.

(** ** delegates.py *)

Section DelegateFacts.
Import Delegates.


(** The conversely expected call: a non-empty version other than the
    default is patched, as [family==version]. *)
Lemma setModelData_patches_a_change (currentIndex : Z) (h : heap) version :
  py_index (versions (model h)) currentIndex = Ok version ->
  version <> "" -> version <> default (model h) ->
  setModelData currentIndex h
  = (Ok tt,
     {| ctrl_patched :=
          (ctrl_patched h
           ++ [(family (model h) ++ "==" ++ version)%string])%list;
        model := model h |}).
Proof.
  intros Hidx Hempty Hdef. unfold setModelData. rewrite Hidx.
  apply String.eqb_neq in Hempty, Hdef. rewrite Hempty, Hdef.
  reflexivity.
Qed.


Example setModelData_other_version :
  setModelData 2 maya_row
  = (Ok tt, {| ctrl_patched := ["maya==2020.0.0"];
               model := model maya_row |}).
Proof. reflexivity. Qed.

(** An editor without a current item reports index -1, which Python
    reads as the last option. *)
Example setModelData_no_current_item :
  setModelData (-1) maya_row
  = (Ok tt, {| ctrl_patched := ["maya==2020.0.0"];
               model := model maya_row |}).
Proof. reflexivity. Qed.

End DelegateFacts.

(** ** tests/util.py *)

Section WaitFacts.
Import TestUtil.

Lemma singleShot_armed (timeout : Z) :
  (0 <= timeout <= INT_MAX)%Z -> singleShot timeout = Ok (Some timeout).
Proof.
  unfold singleShot, INT_MIN, INT_MAX. intros Hrange.
  replace (timeout <? -2147483648)%Z with false
    by (symmetry; apply Z.ltb_ge; lia).
  replace (2147483647 <? timeout)%Z with false
    by (symmetry; apply Z.ltb_ge; lia).
  replace (timeout <? 0)%Z with false by (symmetry; apply Z.ltb_ge; lia).
  reflexivity.
Qed.

(** X10: for a timeout that [QTimer.singleShot] accepts and arms a timer
    for, that is one from 0 to the largest C [int], and with [on_value]
    left out, or given and truthy, [wait] raises exactly when no matching
    emission arrives ahead of the timer, provided the emissions are
    delivered in the order of their times. *)
Lemma wait_truthy_on_value (signal : list emission) (on_value : pyval)
    (timeout : Z) :
  (0 <= timeout <= INT_MAX)%Z ->
  on_value = VNone \/ truthy on_value = true ->
  StronglySorted (fun a b : emission => (fst a <= fst b)%Z) signal ->
  wait signal on_value timeout
  = if fires signal on_value timeout then Ok tt
    else Raise (PyException "Signal waiting timeout.").
Proof.
  intros Hrange Hgiven Hsorted. unfold wait, fires.
  rewrite (singleShot_armed _ Hrange). cbn [bind].
  set (matches := fun ev : emission =>
         ((fst ev <? timeout)%Z &&
          match on_value with
          | VNone => true
          | _ => py_eq (snd ev) on_value
          end)).
  assert (Hslot : forall value,
             trigger on_value value
             = match on_value with
               | VNone => true
               | _ => py_eq value on_value
               end).
  { intros value. unfold trigger.
    destruct Hgiven as [->|Htruthy]; [reflexivity|].
    rewrite Htruthy. destruct on_value; try reflexivity. discriminate. }
  induction Hsorted as [|[t value] rest Hrest IH Hle]; [reflexivity|].
  simpl. unfold matches at 1. simpl.
  destruct (timeout <=? t)%Z eqn:Hlate.
  - apply Z.leb_le in Hlate.
    replace (t <? timeout)%Z with false by (symmetry; apply Z.ltb_ge; lia).
    simpl.
    replace (existsb matches rest) with false; [reflexivity|].
    symmetry. apply not_true_is_false. intros Hex.
    apply existsb_exists in Hex as (ev & Hin & Hev).
    rewrite Forall_forall in Hle. apply list_elem_of_In, Hle in Hin.
    unfold matches in Hev. apply andb_true_iff in Hev as [Hev _].
    apply Z.ltb_lt in Hev. simpl in Hin. lia.
  - apply Z.leb_gt in Hlate. apply Z.ltb_lt in Hlate. rewrite Hlate. simpl.
    rewrite Hslot.
    destruct (match on_value with
              | VNone => true
              | _ => py_eq value on_value
              end); [reflexivity|]. exact IH.
Qed.

(** A timeout that does not fit a C [int] makes [wait] raise
    [OverflowError] before the loop is entered. *)
Lemma wait_overflow (signal : list emission) (on_value : pyval)
    (timeout : Z) :
  (timeout < INT_MIN \/ INT_MAX < timeout)%Z ->
  wait signal on_value timeout = Raise OverflowError.
Proof.
  intros Hrange. unfold wait, singleShot.
  replace ((timeout <? INT_MIN) || (INT_MAX <? timeout))%Z with true;
    [reflexivity|].
  symmetry. apply orb_true_iff.
  destruct Hrange; [left|right]; apply Z.ltb_lt; assumption.
Qed.

(** With a negative timeout no timer is armed: [wait] never raises its
    timeout exception; it returns at the first emission its slot accepts
    and does not return when there is none. *)
Lemma wait_without_timer (signal : list emission) (on_value : pyval)
    (timeout : Z) :
  (INT_MIN <= timeout < 0)%Z ->
  wait signal on_value timeout
  = if existsb (fun ev : emission => trigger on_value (snd ev)) signal
    then Ok tt else Diverge.
Proof.
  intros Hrange. unfold wait, singleShot.
  replace ((timeout <? INT_MIN) || (INT_MAX <? timeout))%Z with false.
  2:{ symmetry. apply orb_false_iff. unfold INT_MAX in *.
      split; apply Z.ltb_ge; lia. }
  replace (timeout <? 0)%Z with true by (symmetry; apply Z.ltb_lt; lia).
  cbn [bind].
  induction signal as [|[t value] rest IH]; [reflexivity|].
  simpl. destruct (trigger on_value value); [reflexivity|exact IH].
Qed.

(** C4, at its failing input: [on_value] is given as [False], the signal
    emits [True] at once, and [wait] returns normally although no emitted
    value equals [on_value]. *)
Theorem wait_falsy_on_value_matches_anything :
  wait [(0%Z, VBool true)] (VBool false) 1000 = Ok tt
  /\ fires [(0%Z, VBool true)] (VBool false) 1000 = false.
Proof. split; reflexivity. Qed.

Example wait_times_out :
  wait [(400%Z, VStr "busy"); (1200%Z, VStr "ready")] (VStr "ready") 1000
  = Raise (PyException "Signal waiting timeout.").
Proof. reflexivity. Qed.

Example wait_returns :
  wait [(400%Z, VStr "busy"); (700%Z, VStr "ready")] (VStr "ready") 1000
  = Ok tt.
Proof. reflexivity. Qed.

End WaitFacts.

(** ** resources.py *)

Section PixmapFacts.
Import Resources.

Variable dirname : string.
Variable os_path_join : string -> list string -> string.
Variable os_path_normpath : string -> string.

(** One call of [pixmap]: the outcome, and what it hands to the [QPixmap]
    constructor, for a store whose cache is sound. *)
Lemma pixmap_step os_path_splitext (paths : list string) (st : store) :
  cache_ok dirname os_path_join os_path_normpath st ->
  let out := pixmap dirname os_path_join os_path_normpath os_path_splitext
               paths st in
  cache_ok dirname os_path_join os_path_normpath (snd out)
  /\ (constructed (snd out) = constructed st
      \/ constructed (snd out)
         = (constructed st
            ++ [find dirname os_path_join os_path_normpath paths])%list)
  /\ (paths = [] /\ fst out = Raise IndexError
      \/ fst out
         = Ok (MkQPixmap
                 (find dirname os_path_join os_path_normpath paths))).
Proof.
  intros Hok. unfold pixmap.
  destruct (py_index paths (-1)) as [basename|e|] eqn:Hidx.
  - destruct (os_path_splitext basename) as [name ext].
    destruct (_cache st !! paths) as [pm|] eqn:Hhit; simpl.
    + split; [exact Hok|]. split; [left; reflexivity|].
      right. f_equal. exact (Hok _ _ Hhit).
    + split.
      * intros k pm Hk. simpl in Hk. rewrite lookup_insert in Hk.
        case_decide; [subst k | exact (Hok _ _ Hk)].
        injection Hk as <-. reflexivity.
      * split; [right; reflexivity | right; reflexivity].
  - simpl. split; [exact Hok|]. split; [left; reflexivity|]. left.
    pose proof (py_index_raises _ _ _ Hidx) as ->.
    rewrite py_index_last in Hidx.
    destruct (last paths) eqn:Hlast; [discriminate|].
    apply last_None in Hlast. subst paths. split; reflexivity.
  - exfalso. exact (py_index_returns _ _ Hidx).
Qed.

Lemma after_calls_cache_ok os_path_splitext (calls : list (list string)) :
  cache_ok dirname os_path_join os_path_normpath
    (after_calls dirname os_path_join os_path_normpath os_path_splitext
       calls).
Proof.
  unfold after_calls.
  induction calls as [|paths calls IH] using rev_ind.
  - intros k pm. simpl. rewrite lookup_empty. discriminate.
  - rewrite fold_left_app. simpl.
    exact (proj1 (pixmap_step os_path_splitext paths _ IH)).
Qed.

(** C8: whatever was loaded before, [pixmap] reads no file other than
    [find] of its arguments and returns the pixmap of that file, also
    when the last component has no extension: the call does not depend
    on what [os.path.splitext] answers. With no argument at all the
    subscript [paths[-1]] raises and nothing is read. *)
Theorem pixmap_loads_the_found_path
    (os_path_splitext os_path_splitext' : string -> string * string)
    (calls : list (list string)) (paths : list string) :
  let st := after_calls dirname os_path_join os_path_normpath
              os_path_splitext calls in
  let out := pixmap dirname os_path_join os_path_normpath os_path_splitext
               paths st in
  out = pixmap dirname os_path_join os_path_normpath os_path_splitext'
          paths st
  /\ (constructed (snd out) = constructed st
      \/ constructed (snd out)
         = (constructed st
            ++ [find dirname os_path_join os_path_normpath paths])%list)
  /\ (paths = [] /\ fst out = Raise IndexError
      \/ fst out
         = Ok (MkQPixmap
                 (find dirname os_path_join os_path_normpath paths))).
Proof.
  intros st out. split.
  - unfold out, pixmap.
    destruct (py_index paths (-1)) as [basename|e|]; try reflexivity.
    destruct (os_path_splitext basename), (os_path_splitext' basename).
    reflexivity.
  - exact (proj2 (pixmap_step os_path_splitext paths st
                    (after_calls_cache_ok os_path_splitext calls))).
Qed.

End PixmapFacts.

(** A name without extension: the file asked for is "icons/play", not
    "icons/play.png". *)
Example pixmap_without_extension :
  let join (d : string) (ps : list string) := String.concat "/" (d :: ps) in
  let splitext (s : string) := (s, "") in
  Resources.pixmap "/opt/allzpark" join id splitext ["icons"; "play"]
    Resources.empty_store
  = (Ok (Resources.MkQPixmap "/opt/allzpark/resources/icons/play"),
     {| Resources._cache :=
          {[ ["icons"; "play"]
             := Resources.MkQPixmap "/opt/allzpark/resources/icons/play" ]};
        Resources.constructed := ["/opt/allzpark/resources/icons/play"] |}).
Proof. reflexivity. Qed.

Section PaletteFacts.
Import Resources.

Lemma dict_set_keys_forall {V : Type} (P : pyval -> bool) (k : pyval)
    (v : V) (d : dict V) :
  P k = true -> forallb P (keys d) = true ->
  forallb P (keys (dict_set k v d)) = true.
Proof.
  intros Hk. induction d as [|[k' v'] d IH]; simpl.
  - rewrite Hk. reflexivity.
  - intros [Hk' Hd]%andb_true_iff.
    destruct (py_eq k' k); simpl; rewrite Hk'; simpl; auto.
Qed.

Lemma dict_set_unique {V : Type} (k : pyval) (v : V) (d : dict V) :
  unique_keys (keys d) = true -> unique_keys (keys (dict_set k v d)) = true.
Proof.
  induction d as [|[k' v'] d IH]; simpl; [reflexivity|].
  intros [Hk' Hd]%andb_true_iff.
  destruct (py_eq k' k) eqn:Hkk; simpl.
  - rewrite Hk', Hd. reflexivity.
  - rewrite IH by exact Hd. rewrite andb_true_r.
    apply dict_set_keys_forall; [rewrite Hkk; reflexivity | exact Hk'].
Qed.

Lemma dict_update_unique {V : Type} (other d : dict V) :
  unique_keys (keys d) = true ->
  unique_keys (keys (dict_update d other)) = true.
Proof.
  unfold dict_update. revert d.
  induction other as [|[k v] other IH]; intros d Hd; simpl; [exact Hd|].
  apply IH, dict_set_unique, Hd.
Qed.

Lemma py_eq_str (k' k : pyval) :
  py_eq k' k = true -> is_str k' = true -> is_str k = true.
Proof. destruct k', k; simpl; congruence. Qed.

Lemma dict_set_keys_str {V : Type} (k : pyval) (v : V) (d : dict V) :
  forallb is_str (keys (dict_set k v d))
  = forallb is_str (keys d) && is_str k.
Proof.
  induction d as [|[k' v'] d IH]; simpl.
  - rewrite andb_true_r. reflexivity.
  - destruct (py_eq k' k) eqn:Hkk; simpl.
    + destruct (is_str k') eqn:Hs; simpl; [|reflexivity].
      rewrite (py_eq_str _ _ Hkk Hs), andb_true_r. reflexivity.
    + rewrite IH, andb_assoc. reflexivity.
Qed.

Lemma dict_update_keys_str {V : Type} (other d : dict V) :
  forallb is_str (keys (dict_update d other))
  = forallb is_str (keys d) && forallb is_str (keys other).
Proof.
  unfold dict_update. revert d.
  induction other as [|[k v] other IH]; intros d; simpl.
  - rewrite andb_true_r. reflexivity.
  - rewrite IH, dict_set_keys_str, andb_assoc. reflexivity.
Qed.

Lemma py_eq_refl : forall v : pyval, py_eq v v = true.
Proof.
  fix IH 1. intros [|b|n|s|l]; simpl.
  - reflexivity.
  - destruct b; reflexivity.
  - apply Z.eqb_refl.
  - apply String.eqb_refl.
  - induction l as [|x l IHl]; [reflexivity|].
    rewrite (IH x), IHl. reflexivity.
Qed.

Lemma fresh_key_app (k : pyval) (l1 l2 : list pyval) :
  fresh_key k (l1 ++ l2) = fresh_key k l1 && fresh_key k l2.
Proof. apply forallb_app. Qed.

Lemma not_fresh_key (k : pyval) (l : list pyval) :
  fresh_key k l = false -> exists k', k' ∈ l /\ py_eq k' k = true.
Proof.
  unfold fresh_key. induction l as [|k' l IH]; simpl; [discriminate|].
  destruct (py_eq k' k) eqn:Hkk; simpl.
  - intros _. exists k'. split; [left|exact Hkk].
  - intros (k'' & Hin & Heq)%IH. exists k''. split; [right|]; assumption.
Qed.

Lemma dict_set_keys {V : Type} (k : pyval) (v : V) (d : dict V) :
  keys (dict_set k v d)
  = if fresh_key k (keys d) then (keys d ++ [k])%list else keys d.
Proof.
  unfold fresh_key. induction d as [|[k' v'] d IH]; simpl; [reflexivity|].
  destruct (py_eq k' k); simpl; [reflexivity|].
  rewrite IH. destruct (forallb _ (keys d)); reflexivity.
Qed.

(** [update] keeps the keys there are, in their order, and appends keys
    of the other mapping. *)
Lemma dict_update_keys {V : Type} (other d : dict V) :
  exists carried,
    keys (dict_update d other) = (keys d ++ carried)%list
    /\ (forall k, k ∈ carried -> k ∈ keys other)
    /\ (forall k, k ∈ keys other ->
          exists k', k' ∈ keys (dict_update d other) /\ py_eq k' k = true)
    /\ (unique_keys (keys other) = true ->
        carried = List.filter (fun k => fresh_key k (keys d)) (keys other)).
Proof.
  unfold dict_update. revert d.
  induction other as [|[k v] other IH]; intros d.
  - exists []. simpl. rewrite app_nil_r.
    split; [reflexivity|]. split; [intros k H; inversion H|].
    split; [intros k H; inversion H|reflexivity].
  - destruct (IH (dict_set k v d)) as (carried & Hkeys & Hfrom & Hall & Hexact).
    change (fold_left (fun acc kv => dict_set (fst kv) (snd kv) acc)
              ((k, v) :: other) d)
      with (fold_left (fun acc kv => dict_set (fst kv) (snd kv) acc)
              other (dict_set k v d)).
    change (keys ((k, v) :: other)) with (k :: keys other).
    rewrite dict_set_keys in Hkeys, Hexact.
    destruct (fresh_key k (keys d)) eqn:Hfresh.
    + exists (k :: carried). rewrite Hkeys, <- app_assoc.
      split; [reflexivity|]. split; [|split].
      * intros k0 [Hk0|H]%elem_of_cons; [subst k0; left|right; auto].
      * intros k0 [Hk0|H]%elem_of_cons.
        -- exists k0. split; [subst k0|apply py_eq_refl].
           apply elem_of_app. right. left.
        -- destruct (Hall k0 H) as (k' & Hin & Heq).
           exists k'. split; [|exact Heq].
           rewrite Hkeys, <- app_assoc in Hin. exact Hin.
      * simpl. intros [Hk Hother]%andb_true_iff. rewrite Hfresh. f_equal.
        rewrite (Hexact Hother). apply List.filter_ext_in.
        intros x Hx. rewrite fresh_key_app. simpl.
        rewrite forallb_forall in Hk. rewrite (Hk x Hx).
        rewrite !andb_true_r. reflexivity.
    + exists carried. rewrite Hkeys. split; [reflexivity|]. split; [|split].
      * intros k0 H. right. auto.
      * intros k0 [Hk0|H]%elem_of_cons; [subst k0|rewrite <- Hkeys; auto].
        destruct (not_fresh_key _ _ Hfresh) as (k' & Hin & Heq).
        exists k'. split; [|exact Heq]. apply elem_of_app. left. exact Hin.
      * simpl. intros [Hk Hother]%andb_true_iff. rewrite Hfresh.
        apply Hexact, Hother.
Qed.

(** C9, as the code has it: for every value of [allzparkconfig.palettes],
    absent, empty or any mapping, the keys of the dictionary
    [load_palettes] returns are pairwise different; they are "dark" and
    "light", in this order, followed by keys of the configured mapping,
    carried over as they are; every configured key is there or has a key
    that is [==] to it there; for a configured mapping whose keys are
    pairwise different, the keys carried over are exactly its keys other
    than "dark" and "light", in their order; and the keys are all strings
    exactly when the keys of the configured mapping are. *)
Theorem load_palettes_keys (config_palettes : option (dict palette)) :
  let configured := keys (default [] config_palettes) in
  let result := keys (load_palettes config_palettes) in
  unique_keys result = true
  /\ (exists carried,
        result = VStr "dark" :: VStr "light" :: carried
        /\ (forall k, k ∈ carried -> k ∈ configured)
        /\ (forall k, k ∈ configured ->
              exists k', k' ∈ result /\ py_eq k' k = true)
        /\ (unique_keys configured = true ->
            carried
            = List.filter
                (fun k => fresh_key k [VStr "dark"; VStr "light"])
                configured))
  /\ forallb is_str result = forallb is_str configured.
Proof.
  unfold load_palettes.
  destruct config_palettes as [[|kv more]|].
  1,3: split; [reflexivity|]; split; [|reflexivity];
    exists []; split; [reflexivity|]; split; [intros k H; inversion H|];
    split; [intros k H; inversion H|reflexivity].
  cbv zeta. split; [apply dict_update_unique; reflexivity|].
  split; [|rewrite dict_update_keys_str; reflexivity].
  destruct (dict_update_keys (kv :: more)
              [(VStr "dark", dark); (VStr "light", light)])
    as (carried & Hkeys & Hfrom & Hall & Hexact).
  exists carried. split; [exact Hkeys|]. split; [exact Hfrom|].
  split; [exact Hall|exact Hexact].
Qed.
(** C9, as stated, fails: a configured mapping with the key [1] gives a
    dictionary that has a key which is no string. *)
Lemma load_palettes_key_not_a_string :
  load_palettes (Some [(VInt 1, [("base", "#000000")])])
  = [ (VStr "dark", dark); (VStr "light", light);
      (VInt 1, [("base", "#000000")]) ]
  /\ forallb is_str
       (keys (load_palettes (Some [(VInt 1, [("base", "#000000")])])))
     = false.
Proof. split; reflexivity. Qed.

(** A configured palette replaces the built-in one of the same name. *)
Example load_palettes_overrides_dark :
  load_palettes (Some [(VStr "dark", [("base", "#000000")])])
  = [ (VStr "dark", [("base", "#000000")]); (VStr "light", light) ].
Proof. reflexivity. Qed.

End PaletteFacts.

(** ** cli.py: the effect of the building blocks on the trace *)

Section TraceFacts.
Import Cli.

Lemma runs_weaken {A : Type} (m : M A) (Q Q' : result A -> list event -> Prop) :
  runs m Q -> (forall r l, Q r l -> Q' r l) -> runs m Q'.
Proof.
  intros Hm HQ st. destruct (Hm st) as (l & Ht & Hl). eauto.
Qed.

Lemma runs_bind {A B : Type} (m : M A) (k : A -> M B)
    (Q1 : result A -> list event -> Prop)
    (Q2 : A -> result B -> list event -> Prop)
    (Q : result B -> list event -> Prop) :
  runs m Q1 ->
  (forall a, runs (k a) (Q2 a)) ->
  (forall a l1 r l2, Q1 (Ok a) l1 -> Q2 a r l2 -> Q r (l1 ++ l2)%list) ->
  (forall e l, Q1 (Raise e) l -> Q (Raise e) l) ->
  (forall l, Q1 Diverge l -> Q Diverge l) ->
  runs (m ≫= k) Q.
Proof.
  intros Hm Hk Hok Hraise Hdiv st.
  destruct (Hm st) as (l1 & Ht1 & Hl1).
  unfold mbind, M_bind. destruct (m st) as [[a|e|] st1]; simpl in *.
  - destruct (Hk a st1) as (l2 & Ht2 & Hl2).
    exists (l1 ++ l2)%list. rewrite Ht2, Ht1, app_assoc. eauto.
  - exists l1. eauto.
  - exists l1. eauto.
Qed.

Lemma runs_try_except {A : Type} (body : M A) (handles : exn -> bool)
    (handler : exn -> M A)
    (Q1 : result A -> list event -> Prop)
    (Q2 : exn -> result A -> list event -> Prop)
    (Q : result A -> list event -> Prop) :
  runs body Q1 ->
  (forall e, runs (handler e) (Q2 e)) ->
  (forall a l, Q1 (Ok a) l -> Q (Ok a) l) ->
  (forall l, Q1 Diverge l -> Q Diverge l) ->
  (forall e l, Q1 (Raise e) l -> handles e = false -> Q (Raise e) l) ->
  (forall e l1 r l2,
      Q1 (Raise e) l1 -> handles e = true -> Q2 e r l2 ->
      Q r (l1 ++ l2)%list) ->
  runs (try_except body handles handler) Q.
Proof.
  intros Hbody Hhandler Hok Hdiv Hpass Hcaught st.
  destruct (Hbody st) as (l1 & Ht1 & Hl1).
  unfold try_except. destruct (body st) as [[a|e|] st1]; simpl in *.
  - exists l1. eauto.
  - destruct (handles e) eqn:He.
    + destruct (Hhandler e st1) as (l2 & Ht2 & Hl2).
      exists (l1 ++ l2)%list. rewrite Ht2, Ht1, app_assoc. eauto.
    + exists l1. eauto.
  - exists l1. eauto.
Qed.

Section Always.

Variable ok : event -> Prop.

Lemma always_ret {A : Type} (a : A) : always ok (mret a).
Proof. intros st. exists []. rewrite app_nil_r. auto. Qed.

Lemma always_raise {A : Type} (e : exn) : always ok (@raise A e).
Proof. intros st. exists []. rewrite app_nil_r. auto. Qed.

Lemma always_exit {A : Type} (code : Z) : always ok (@exit A code).
Proof. apply always_raise. Qed.

Lemma always_lift {A : Type} (r : result A) : always ok (lift r).
Proof. intros st. exists []. rewrite app_nil_r. auto. Qed.

Lemma always_get : always ok get.
Proof. intros st. exists []. rewrite app_nil_r. auto. Qed.

Lemma always_modify (f : state -> state) :
  (forall st, trace (f st) = trace st) -> always ok (modify f).
Proof.
  intros Hf st. exists []. simpl. rewrite Hf, app_nil_r. auto.
Qed.

Lemma always_emit (e : event) : ok e -> always ok (emit e).
Proof. intros He st. exists [e]. simpl. auto. Qed.

Lemma always_bind {A B : Type} (m : M A) (k : A -> M B) :
  always ok m -> (forall a, always ok (k a)) -> always ok (m ≫= k).
Proof.
  intros Hm Hk.
  apply (runs_bind m k _ (fun _ _ l => Forall ok l) _ Hm Hk); auto.
  intros a l1 r l2 H1 H2. apply Forall_app. auto.
Qed.

Lemma always_try_except {A : Type} (body : M A) (handles : exn -> bool)
    (handler : exn -> M A) :
  always ok body -> (forall e, always ok (handler e)) ->
  always ok (try_except body handles handler).
Proof.
  intros Hbody Hhandler.
  apply (runs_try_except body handles handler _
           (fun _ _ l => Forall ok l) _ Hbody Hhandler); auto.
  intros e l1 r l2 H1 _ H2. apply Forall_app. auto.
Qed.

Lemma always_try_finally {A : Type} (body : M A) (cleanup : M unit) :
  always ok body -> always ok cleanup ->
  always ok (try_finally body cleanup).
Proof.
  intros Hbody Hcleanup st.
  destruct (Hbody st) as (l1 & Ht1 & Hl1).
  unfold try_finally.
  destruct (body st) as [r st1]; simpl in *.
  destruct (Hcleanup st1) as (l2 & Ht2 & Hl2).
  destruct r as [a|e|]; [| |exists l1; auto];
    (exists (l1 ++ l2)%list; split; [|apply Forall_app; auto]);
    destruct (cleanup st1) as [[[]|e'|] st2]; simpl in *;
    rewrite Ht2, Ht1, app_assoc; reflexivity.
Qed.

Hypothesis ok_Tell : forall text, ok (Tell text).
Hypothesis ok_TellElapsed : forall template, ok (TellElapsed template).
Hypothesis ok_TellTraceback : forall e, ok (TellTraceback e).

Lemma always_tell (text : string) (newlines : nat) :
  always ok (tell text newlines).
Proof. apply always_emit, ok_Tell. Qed.

Lemma always_timings {A : Type} (w : World) (title : string)
    (timing : bool) (body : M A) :
  always ok body -> always ok (timings w title timing body).
Proof.
  intros Hbody. unfold timings.
  apply always_bind; [apply always_tell|intros _].
  apply always_bind; [apply always_modify; reflexivity|intros _].
  apply always_bind.
  - apply always_try_except; [exact Hbody|intros e].
    apply always_bind; [apply always_get|intros st].
    apply always_bind; [apply always_tell|intros _].
    apply always_bind; [|intros _; apply always_exit].
    destruct (log_level st <? WARNING)%Z;
      [apply always_emit, ok_TellTraceback | apply always_tell].
  - intros a. apply always_bind; [apply always_get|intros st].
    apply always_bind; [|intros _; apply always_ret].
    destruct (format_raises w _);
      [apply always_raise | apply always_emit, ok_TellElapsed].
Qed.

End Always.

End TraceFacts.

(** One structural step of a proof that all events of a computation
    satisfy a predicate: the rule of the combinator at the head, or a case
    split on what the head branches on. *)
Ltac always_head :=
  cbv zeta;
  lazymatch goal with
  | |- Cli.always _ (mret _) => apply always_ret
  | |- Cli.always _ (mbind _ _) => apply always_bind; [|intros ?]
  | |- Cli.always _ (Cli.raise _) => apply always_raise
  | |- Cli.always _ (Cli.exit _) => apply always_exit
  | |- Cli.always _ (Cli.lift _) => apply always_lift
  | |- Cli.always _ Cli.get => apply always_get
  | |- Cli.always _ (Cli.modify _) =>
      apply always_modify; intros; reflexivity
  | |- Cli.always _ (Cli.try_except _ _ _) =>
      apply always_try_except; [|intros ?]
  | |- Cli.always _ (Cli.try_finally _ _) => apply always_try_finally
  | |- Cli.always _ (Cli.emit _) => apply always_emit
  | |- Cli.always _ (if ?b then _ else _) => destruct b eqn:?
  | |- Cli.always _ (match ?x with _ => _ end) => destruct x eqn:?
  end.

Section StepFacts.
Import Cli.

Variable w : World.
Variable ok : event -> Prop.
Hypothesis ok_plain : forall e, plain e -> ok e.

Local Lemma ok_Tell text : ok (Tell text).
Proof. apply ok_plain. exact I. Qed.

Local Lemma ok_TellElapsed template : ok (TellElapsed template).
Proof. apply ok_plain. exact I. Qed.

Local Lemma ok_TellTraceback e : ok (TellTraceback e).
Proof. apply ok_plain. exact I. Qed.

Ltac plainly :=
  repeat lazymatch goal with
    | |- always _ (tell _ _) => apply always_tell; apply ok_Tell
    | |- always _ (timings _ _ _ _) =>
        apply always_timings;
        [apply ok_Tell | apply ok_TellElapsed | apply ok_TellTraceback |]
    | |- _ => always_head
    end;
  try (apply ok_plain; exact I).


Lemma always_setattr name value : always ok (setattr name value).
Proof. unfold setattr. plainly. Qed.

Lemma always_set_success text : always ok (set_success text).
Proof. unfold set_success. plainly. Qed.

Lemma always_set_failure text : always ok (set_failure text).
Proof. unfold set_failure. plainly. Qed.

Lemma always_backwards_compatibility : always ok _backwards_compatibility.
Proof. unfold _backwards_compatibility. plainly. Qed.

Lemma always_patch_allzparkconfig : always ok _patch_allzparkconfig.
Proof. unfold _patch_allzparkconfig. plainly. Qed.

Lemma always_patch_rez_bin_path rounds :
  always ok (_patch_rez_bin_path w rounds).
Proof.
  unfold _patch_rez_bin_path, _find_rez_bin_in_context. plainly.
Qed.

Lemma always_resolve_native_environ :
  always ok (_resolve_native_environ w).
Proof.
  unfold _resolve_native_environ, exclude_rez_bin_path. plainly.
Qed.

Lemma always_boot_console : always ok (boot_console w).
Proof. unfold boot_console. plainly. apply always_setattr. Qed.

Lemma always_boot_banner : always ok (boot_banner w).
Proof. unfold boot_banner. plainly. Qed.

Lemma always_boot_demo : always ok (boot_demo w).
Proof. unfold boot_demo. plainly. apply always_set_failure. Qed.

Lemma always_boot_rez : always ok (boot_rez w).
Proof. unfold boot_rez. plainly. apply always_set_success. Qed.

Lemma always_boot_rez_bin_path rounds :
  always ok (boot_rez_bin_path w rounds).
Proof.
  unfold boot_rez_bin_path. plainly;
    [apply always_patch_rez_bin_path | apply always_set_success].
Qed.

Lemma always_boot_native_environ : always ok (boot_native_environ w).
Proof.
  unfold boot_native_environ. plainly;
    first [apply always_resolve_native_environ | apply always_set_success].
Qed.

Lemma always_boot_qt : always ok (boot_qt w).
Proof.
  unfold boot_qt. plainly;
    first [apply always_set_success | apply always_set_failure].
Qed.

Lemma always_boot_allzpark : always ok (boot_allzpark w).
Proof. unfold boot_allzpark. plainly. apply always_set_success. Qed.

Lemma always_boot_localz : always ok (boot_localz w).
Proof. unfold boot_localz. apply always_setattr. Qed.

(** The steps that write settings. *)

Hypothesis ok_SetValue :
  forall key value, entry_shape (key, value) = true -> ok (SetValue key value).

Lemma always_setValue key value :
  entry_shape (key, value) = true -> always ok (setValue key value).
Proof. intros Hshape. unfold setValue. plainly. auto. Qed.

Lemma always_setValues items :
  forallb entry_shape items = true -> always ok (setValues items).
Proof.
  induction items as [|[key value] items IH]; simpl.
  - intros _. apply always_ret.
  - intros [Hentry Hitems]%andb_true_iff.
    apply always_bind; [apply always_setValue, Hentry | intros _; auto].
Qed.

Lemma is_str_list_strings (l : list string) :
  is_str_list (VList (map VStr l)) = true.
Proof. simpl. induction l; simpl; auto. Qed.

Lemma defaults_shape rez Qt st :
  forallb entry_shape (defaults w rez Qt st) = true.
Proof.
  unfold defaults. cbn [forallb].
  pose proof (is_str_list_strings (packages_path rez)) as H1.
  pose proof (is_str_list_strings
                (split (pathsep w) (local_packages_path rez))) as H2.
  pose proof (is_str_list_strings
                (split (pathsep w) (release_packages_path rez))) as H3.
  unfold entry_shape. cbn [String.eqb Ascii.eqb Bool.eqb orb andb is_str].
  rewrite H1, H2, H3. reflexivity.
Qed.

Lemma always_store_startup name key :
  key = "startupProfile" \/ key = "startupApp" ->
  always ok (store_startup name key).
Proof.
  intros Hkey. unfold store_startup. plainly.
  apply always_setValue. destruct Hkey as [-> | ->]; simpl; assumption.
Qed.

Lemma always_boot_preferences rez Qt : always ok (boot_preferences w rez Qt).
Proof.
  unfold boot_preferences. plainly.
  - apply always_setValues, defaults_shape.
  - apply always_store_startup. auto.
  - apply always_store_startup. auto.
  - apply always_setValue. reflexivity.
Qed.

(** The steps that make up the stated order, and [main] as a whole. *)

Hypothesis ok_staged : forall e, is_Some (stage e) -> ok e.






End StepFacts.

(** ** cli.py: the order of the bootstrap *)

Section OrderFacts.
Import Cli.

Variable w : World.

Lemma unstaged_plain e : plain e -> unstaged e.
Proof. destruct e; simpl; intros []; reflexivity. Qed.

Lemma unstaged_SetValue key value :
  entry_shape (key, value) = true -> unstaged (SetValue key value).
Proof. reflexivity. Qed.

Lemma omap_stage_unstaged (l : list event) :
  Forall unstaged l -> omap stage l = [].
Proof.
  induction 1 as [|e l He _ IH]; [reflexivity|].
  simpl. rewrite He. exact IH.
Qed.

(** A step that emits none of the four ordered events. *)
Lemma staged_silent {A : Type} (m : M A) :
  always unstaged m -> runs m (staged []).
Proof.
  intros Hm. apply (runs_weaken _ _ _ Hm). intros r l Hl.
  apply omap_stage_unstaged in Hl. unfold staged. rewrite Hl.
  destruct r; reflexivity.
Qed.

Lemma staged_bind {A B : Type} (steps1 steps2 : list nat) (m : M A)
    (k : A -> M B) :
  runs m (staged steps1) -> (forall a, runs (k a) (staged steps2)) ->
  runs (m ≫= k) (staged (steps1 ++ steps2)).
Proof.
  intros Hm Hk.
  apply (runs_bind m k _ (fun _ => staged steps2) _ Hm Hk).
  - intros a l1 r l2 H1 H2. unfold staged in *. rewrite omap_app, H1.
    destruct r; [rewrite H2; reflexivity | | ]; apply prefix_app, H2.
  - intros e l H. apply prefix_app_r, H.
  - intros l H. apply prefix_app_r, H.
Qed.

Lemma staged_emit (e : event) : runs (emit e) (@staged unit (omap stage [e])).
Proof. intros st. exists [e]. split; reflexivity. Qed.

Lemma staged_boot_logging verbose : runs (boot_logging verbose) (staged [1]).
Proof.
  unfold boot_logging.
  apply (staged_bind [1] []); [apply staged_emit|intros _].
  apply staged_silent, always_modify. reflexivity.
Qed.

(** [_load_userconfig] opens the file whatever comes of it. *)
Lemma load_userconfig_stages fname :
  runs (_load_userconfig w fname) (fun _ l => omap stage l = [2]).
Proof.
  unfold _load_userconfig.
  eapply (runs_bind _ _
            (fun r l => omap stage l = [] /\ exists a, r = Ok a)
            (fun _ _ l => omap stage l = [2])).
  - assert (Hgetenv : forall key default_,
               runs (getenv key default_)
                 (fun r l => omap stage l = [] /\ exists a, r = Ok a)).
    { intros key default_ st. exists []. rewrite app_nil_r.
      unfold getenv. simpl. eauto. }
    destruct fname as [f|]; [destruct (String.eqb f "")|];
      try apply Hgetenv.
    intros st. exists []. rewrite app_nil_r. simpl. eauto.
  - intros f.
    eapply (runs_bind _ _
              (fun r l => omap stage l = [2] /\ exists a, r = Ok a)
              (fun _ _ l => omap stage l = [])).
    + intros st. exists [UserConfigLoad f]. simpl. eauto.
    + intros _. apply (runs_weaken _ (fun _ l => Forall unstaged l)).
      * change (always unstaged
                  (defined ← try_except (lift (exec_config w f))
                     is_Exception
                     (fun e => if is_IOError e then raise e
                               else raise (UserError
                                 "Better double-check your user config"));
                   st ← get;
                   modify (set_allzparkconfig (fun module =>
                     fold_left (fun module key =>
                       if dunder key then module
                       else match (defined ∪ {[ "__file__" := VStr f ]})
                                  !! key with
                            | Some value => <[key := value]> module
                            | None => module
                            end)
                       (dir (allzparkconfig st)) module));;
                   mret f)).
        repeat always_head.
      * intros r l. apply omap_stage_unstaged.
    + intros a l1 r l2 [H1 _] H2. rewrite omap_app, H1, H2. reflexivity.
    + intros e l [_ [a Ha]]. discriminate.
    + intros l [_ [a Ha]]. discriminate.
  - intros a l1 r l2 [H1 _] H2. rewrite omap_app, H1, H2. reflexivity.
  - intros e l [_ [a Ha]]. discriminate.
  - intros l [_ [a Ha]]. discriminate.
Qed.

Lemma omap_stage_wrap (pre l post : list event) :
  Forall unstaged pre -> Forall unstaged post ->
  omap stage (pre ++ l ++ post)%list = omap stage l.
Proof.
  intros Hpre Hpost.
  rewrite !omap_app, (omap_stage_unstaged _ Hpre),
    (omap_stage_unstaged _ Hpost), app_nil_r.
  reflexivity.
Qed.

Lemma omap_stage_after (pre l : list event) :
  Forall unstaged pre -> omap stage (pre ++ l)%list = omap stage l.
Proof.
  intros Hpre. rewrite omap_app, (omap_stage_unstaged _ Hpre).
  reflexivity.
Qed.

(** [timings] adds boot messages only, turns an [Exception] of the body
    into [exit(1)], and may raise in place of reporting success. *)
Lemma runs_timings {A : Type} (title : string) (timing : bool) (body : M A)
    (S : result A -> list nat -> Prop) :
  runs body (fun r l => S r (omap stage l)) ->
  (forall e s, S (Raise e) s -> is_Exception e = true ->
               S (Raise (SystemExit 1)) s) ->
  (forall a e s, S (Ok a) s -> S (Raise e) s) ->
  runs (timings w title timing body) (fun r l => S r (omap stage l)).
Proof.
  intros Hbody Hexit Hformat st.
  unfold timings, tell, emit, modify, get, try_except, exit, raise.
  unfold mbind, M_bind, mret, M_ret. cbn beta iota.
  match goal with
  | |- context [body ?st1] =>
      destruct (Hbody st1) as (l & Ht & Hl); destruct (body st1) as [r st2]
  end.
  cbn [fst snd trace set_trace set_msg] in Ht, Hl.
  destruct r as [a|e|]; cbn beta iota.
  - destruct (format_raises w (success (msg st2))) as [e|]; cbn beta iota.
    + eexists. cbn [fst snd]. rewrite Ht, <- !app_assoc.
      split; [reflexivity|].
      rewrite omap_stage_after by (repeat constructor). eauto.
    + eexists. cbn [fst snd trace set_trace]. rewrite Ht, <- !app_assoc.
      split; [reflexivity|].
      rewrite omap_stage_wrap by (repeat constructor). exact Hl.
  - destruct (is_Exception e) eqn:He; cbn beta iota.
    + destruct (log_level st2 <? WARNING)%Z; cbn beta iota;
        (eexists; cbn [fst snd trace set_trace]; rewrite Ht, <- !app_assoc;
         split; [reflexivity|];
         rewrite omap_stage_wrap by (repeat constructor); eauto).
    + eexists. cbn [fst snd]. rewrite Ht, <- !app_assoc.
      split; [reflexivity|].
      rewrite omap_stage_after by (repeat constructor). exact Hl.
  - eexists. cbn [fst snd]. rewrite Ht, <- !app_assoc.
    split; [reflexivity|].
    rewrite omap_stage_after by (repeat constructor). exact Hl.
Qed.

Lemma staged_timings {A : Type} (title : string) (timing : bool)
    (body : M A) (steps : list nat) :
  runs body (staged steps) ->
  runs (timings w title timing body) (staged steps).
Proof.
  intros Hbody.
  apply (runs_timings title timing body
           (fun r s => match r with
                       | Ok _ => s = steps
                       | _ => s `prefix_of` steps
                       end) Hbody).
  - auto.
  - intros a e s ->. reflexivity.
Qed.

Lemma staged_boot_userconfig config_file :
  runs (boot_userconfig w config_file) (staged [2]).
Proof.
  unfold boot_userconfig.
  apply (runs_weaken _ (fun _ l => omap stage l = [2])).
  - apply (runs_timings _ _ _ (fun _ s => s = [2])); [|auto|auto].
    eapply (runs_try_except _ _ _
              (fun _ l => omap stage l = [2])
              (fun _ _ l => omap stage l = [])); auto.
    + eapply (runs_bind _ _ (fun _ l => omap stage l = [2])
                (fun _ _ l => omap stage l = [])); auto.
      * apply load_userconfig_stages.
      * intros result.
        apply (runs_weaken _ (fun _ l => Forall unstaged l)).
        -- apply always_set_success.
        -- intros r l. apply omap_stage_unstaged.
      * intros a l1 r l2 H1 H2. rewrite omap_app, H1, H2. reflexivity.
    + intros e st. exists []. rewrite app_nil_r. auto.
    + intros e l1 r l2 H1 _ H2. rewrite omap_app, H1, H2. reflexivity.
  - intros r l Hl. unfold staged. rewrite Hl. destruct r; reflexivity.
Qed.

Ltac silent_then :=
  apply (staged_bind []); [apply staged_silent|intros ?].

Lemma staged_boot_gui : runs (boot_gui w) (staged [3; 4]).
Proof.
  unfold boot_gui.
  apply (staged_bind [3] [4]); [apply staged_emit|intros _].
  silent_then; [apply always_lift|].
  silent_then; [apply always_emit; reflexivity|].
  silent_then; [apply always_get|].
  silent_then; [destruct (bool_decide _);
                [apply always_emit; reflexivity | apply always_ret]|].
  silent_then; [apply always_emit; reflexivity|].
  silent_then.
  { apply always_timings; try reflexivity. apply always_raise. }
  silent_then; [apply always_lift|].
  silent_then; [apply always_raise|].
  silent_then; [apply always_raise|].
  silent_then; [apply always_emit; reflexivity|].
  silent_then; [apply always_emit; reflexivity|].
  silent_then; [destruct (String.eqb _ _);
                [apply always_emit; reflexivity | apply always_ret]|].
  apply (staged_emit EventLoopStarted).
Qed.

(** A run of [main] goes through logging, user configuration, Qt
    application and event loop, in this order, as far as it gets. *)
Lemma staged_main rounds : runs (main w rounds) (staged [1; 2; 3; 4]).
Proof.
  unfold main.
  pose proof unstaged_plain as Hplain.
  pose proof unstaged_SetValue as Hset.
  silent_then; [apply always_boot_console, Hplain|].
  silent_then; [apply always_boot_banner, Hplain|].
  apply (staged_bind [1] [2; 3; 4]); [apply staged_boot_logging|intros _].
  silent_then; [apply always_boot_demo, Hplain|].
  silent_then; [apply always_boot_rez, Hplain|].
  silent_then; [apply always_boot_rez_bin_path, Hplain|].
  silent_then; [apply always_boot_native_environ, Hplain|].
  silent_then; [apply always_boot_qt, Hplain|].
  silent_then; [apply always_boot_allzpark, Hplain|].
  silent_then; [apply always_patch_allzparkconfig|].
  apply (staged_bind [2] [3; 4]); [apply staged_boot_userconfig|intros _].
  silent_then; [apply always_backwards_compatibility|].
  silent_then; [apply always_emit; reflexivity|].
  silent_then; [apply always_modify; reflexivity|].
  silent_then; [apply always_boot_preferences; [apply Hplain|apply Hset]|].
  silent_then; [apply always_boot_localz|].
  silent_then; [apply always_tell; reflexivity|].
  apply staged_boot_gui.
Qed.

End OrderFacts.

(** ** cli.py: the claims about [main] *)

Section MainFacts.
Import Cli.



(** C7: in every run of [main] the events of the four bootstrap steps
    appear in the order logging, user configuration file, Qt application,
    event loop. A run that returns went through all four, each once; a
    run that exits, raises or hangs went through an initial part of
    them. *)
Theorem main_bootstrap_order (w : World) (rounds : nat)
    (module : gmap string pyval) (env : gmap string string)
    (settings : gmap string pyval) :
  let run := main w rounds (initial module env settings) in
  match fst run with
  | Ok _ => omap stage (trace (snd run)) = [1; 2; 3; 4]
  | _ => omap stage (trace (snd run)) `prefix_of` [1; 2; 3; 4]
  end.
Proof.
  destruct (staged_main w rounds (initial module env settings))
    as (l & Ht & Hl).
  simpl in Ht. cbv zeta. rewrite Ht. exact Hl.
Qed.

(** The same order, event by event: whatever precedes an event of a later
    step contains an event of the step before it. *)
Lemma main_earlier_step_first (w : World) (rounds : nat)
    (module : gmap string pyval) (env : gmap string string)
    (settings : gmap string pyval) (before after : list event)
    (e : event) (step : nat) :
  trace (snd (main w rounds (initial module env settings)))
  = (before ++ e :: after)%list ->
  stage e = Some (S (S step)) ->
  exists e', e' ∈ before /\ stage e' = Some (S step).
Proof.
  intros Hsplit He.
  destruct (staged_main w rounds (initial module env settings))
    as (l & Ht & Hl).
  simpl in Ht. rewrite Ht in Hsplit. subst l.
  assert (Hpre : (omap stage before ++ [S (S step)])%list
                 `prefix_of` [1; 2; 3; 4]).
  { assert (H : omap stage (before ++ e :: after)%list
                `prefix_of` [1; 2; 3; 4]).
    { unfold staged in Hl. destruct (fst _); [rewrite Hl|..]; auto. }
    rewrite omap_app in H. simpl in H. rewrite He in H.
    destruct H as [k Hk]. exists (omap stage after ++ k)%list.
    rewrite Hk, <- !app_assoc. reflexivity. }
  assert (Hin : S step ∈ omap stage before).
  { destruct Hpre as [k Hk].
    destruct (omap stage before) as [|a [|b [|c [|d s]]]];
      try destruct s; simpl in Hk; simplify_eq; repeat constructor. }
  apply list_elem_of_omap in Hin as (e' & Hin & He'). eauto.
Qed.



(** *** The resolved context in [_resolve_native_environ] *)

Lemma with_append_sys_path_frame (b : bool) (c : Rezapi.ResolvedContext) :
  Rezapi.append_sys_path (with_append_sys_path b c) = b
  /\ Rezapi.suite_context_name (with_append_sys_path b c)
     = Rezapi.suite_context_name c
  /\ Rezapi.rxt_environ (with_append_sys_path b c) = Rezapi.rxt_environ c.
Proof. repeat split. Qed.

(** C6, as the code has it. With [inherit_parent_environment] on and
    REZ_RXT_FILE set and not empty, [_resolve_native_environ] loads the
    context that file names, sets its [append_sys_path] attribute to
    [False], leaving its other attributes as loaded, and reads its
    environment through [get_environ], with Rez's [rez_tools_visibility]
    at "never": what is rolled back is computed from that environment, and
    apart from the context the state is as before. When loading raises,
    the error is passed on and nothing has changed. With
    [inherit_parent_environment] off, or REZ_RXT_FILE unset or empty, no
    context is loaded or read and nothing changes. In every case the
    process environment is unchanged, and [rez_tools_visibility] is back
    at its value when the call returns or raises. *)
Theorem resolve_native_environ_context (w : World) (st : state) :
  let run := _resolve_native_environ w st in
  os_environ (snd run) = os_environ st
  /\ (fst run = Diverge
      \/ rez_tools_visibility (snd run) = rez_tools_visibility st)
  /\ if inherit_parent_environment w then
       match os_environ st !! "REZ_RXT_FILE" with
       | None | Some EmptyString => run = (Ok None, st)
       | Some rxt =>
           match ResolvedContext_load w rxt with
           | Ok loaded =>
               let cur := with_append_sys_path false loaded in
               current (snd run) = Some cur
               /\ Rezapi.append_sys_path cur = false
               /\ Rezapi.suite_context_name cur
                  = Rezapi.suite_context_name loaded
               /\ Rezapi.rxt_environ cur = Rezapi.rxt_environ loaded
               /\ fst run
                  = bind (get_environ w cur "never") (fun history =>
                      Ok (Some (rollback w history (os_environ st))))
               /\ (fst run = Diverge
                   \/ snd run = set_current (Some cur) st)
           | Raise e => run = (Raise e, st)
           | Diverge => run = (Diverge, st)
           end
       end
     else
       run = (bind (shell_environment w) (fun env => Ok (Some env)), st).
Proof.
  unfold _resolve_native_environ.
  destruct (inherit_parent_environment w); simpl.
  - unfold mbind, M_bind, get.
    destruct (os_environ st !! "REZ_RXT_FILE") as [[|c rxt]|] eqn:Hrxt;
      simpl; auto.
    unfold lift. destruct (ResolvedContext_load w _) as [loaded|e|] eqn:Hload;
      simpl; auto.
    unfold exclude_rez_bin_path, try_finally, modify, mbind, M_bind, get, lift.
    simpl.
    destruct (get_environ w _ _) as [history|e|]; simpl; auto 10.
  - unfold mbind, M_bind, lift.
    destruct (shell_environment w); simpl; auto.
Qed.

(** C6, as stated, fails: started inside a resolved context, the call
    loads a context whose [append_sys_path] is [True] and leaves it
    [False]; and it reads the context's environment, which decides what
    is rolled back: of the three PATH entries, the one the context
    contributed is gone. *)
Lemma resolve_native_environ_touches_context :
  let run := _resolve_native_environ studio in_context_start in
  ResolvedContext_load studio "/tmp/rez_context_x1/context.rxt"
  = Ok {| Rezapi.append_sys_path := true;
          Rezapi.suite_context_name := None;
          Rezapi.rxt_environ := [] |}
  /\ current (snd run)
     = Some {| Rezapi.append_sys_path := false;
               Rezapi.suite_context_name := None;
               Rezapi.rxt_environ := [] |}
  /\ get_environ studio
       {| Rezapi.append_sys_path := false;
          Rezapi.suite_context_name := None;
          Rezapi.rxt_environ := [] |} "never"
     = Ok {[ "PATH" := "/studio/maya/bin" ]}
  /\ fst run
     = Ok (Some {[ "PATH" := "/usr/bin:/bin";
                   "REZ_RXT_FILE" := "/tmp/rez_context_x1/context.rxt" ]}).
Proof. vm_compute. repeat split. Qed.

(** *** Errors *)


(** A [timings] block, case by case. The body runs once, in the state
    [entered]. An [Exception] it raises is reported and replaced by
    [exit(1)]; anything else it raises, [SystemExit] for one, passes; when
    it returns, the success text is formatted, and what that raises leaves
    the block as it is. In every case the state is the one the body left,
    with the report added to what was written. *)
Lemma timings_outcome {A : Type} (w : World) (title : string)
    (timing : bool) (body : M A) (st : state) :
  let run := timings w title timing body st in
  match body (entered title timing st) with
  | (Raise e, after) =>
      if is_Exception e
      then run = (Raise (SystemExit 1),
                  set_trace (fun t => (t ++ failure_report e after)%list) after)
      else run = (Raise e, after)
  | (Ok a, after) =>
      match format_raises w (success (msg after)) with
      | Some e => run = (Raise e, after)
      | None =>
          run = (Ok a,
                 set_trace
                   (fun t => (t ++ [TellElapsed (success (msg after))])%list)
                   after)
      end
  | (Diverge, after) => run = (Diverge, after)
  end.
Proof.
  unfold timings, entered, failure_report, tell, emit, modify, get,
    try_except, exit, raise.
  unfold mbind, M_bind, mret, M_ret. cbn beta iota zeta.
  match goal with
  | |- context [body ?st1] => destruct (body st1) as [[a|e|] after]
  end; cbn beta iota; try reflexivity.
  - destruct (format_raises w (success (msg after))); reflexivity.
  - destruct (is_Exception e); cbn beta iota; [|reflexivity].
    destruct (log_level after <? WARNING)%Z; cbn beta iota;
      unfold set_trace; cbn [trace allzparkconfig os_environ log_level msg
                             rez_tools_visibility catch_rex_errors current
                             storage];
      rewrite <- app_assoc; reflexivity.
Qed.




End MainFacts.

(* ===================================================================== *)
(** * Further properties of the sources *)
(* ===================================================================== *)

(** ** _rezapi.py: the latest package *)

Section SortedFacts.

Context {A : Type}.
Variable lt : A -> A -> bool.

(** [le a b]: [b] is not smaller than [a]. *)
Let le (a b : A) : Prop := lt b a = false.

Hypothesis lt_asym : forall a b, lt a b = true -> lt b a = false.
Hypothesis le_trans :
  forall a b c, lt b a = false -> lt c b = false -> lt c a = false.

Lemma insert_by_sorted (x : A) (l : list A) :
  StronglySorted le l -> StronglySorted le (insert_by lt x l).
Proof.
  induction 1 as [|y l Hl IH Hy]; simpl.
  - repeat constructor.
  - destruct (lt x y) eqn:Hxy.
    + constructor; [constructor; assumption|].
      constructor; [exact (lt_asym _ _ Hxy)|].
      rewrite Forall_forall in *. intros z Hz.
      exact (le_trans _ _ _ (lt_asym _ _ Hxy) (Hy z Hz)).
    + constructor; [exact IH|].
      rewrite Forall_forall in *. intros z Hz.
      apply insert_by_elem in Hz as [->|Hz]; [exact Hxy|].
      apply Hy, Hz.
Qed.

Lemma sorted_sorted (l : list A) : StronglySorted le (sorted lt l).
Proof.
  unfold sorted.
  assert (H : forall acc, StronglySorted le acc ->
                StronglySorted le
                  (fold_left (fun acc x => insert_by lt x acc) l acc)).
  { induction l as [|x l IH]; intros acc Hacc; simpl; [exact Hacc|].
    apply IH, insert_by_sorted, Hacc. }
  apply H. constructor.
Qed.

Lemma sorted_last_greatest (l : list A) (p q : A) :
  last (sorted lt l) = Some p -> q ∈ l -> lt p q = false.
Proof.
  intros Hlast Hq. apply (sorted_elem lt) in Hq.
  pose proof (sorted_sorted l) as Hs.
  apply last_Some in Hlast as [l' Hl']. rewrite Hl' in Hs, Hq.
  apply elem_of_app in Hq as [Hq|Hq].
  - clear Hl'. induction l' as [|a l' IH]; [inversion Hq|].
    simpl in Hs. apply StronglySorted_inv in Hs as [Hs Ha].
    apply elem_of_cons in Hq as [->|Hq]; [|exact (IH Hq Hs)].
    rewrite Forall_forall in Ha. apply Ha, elem_of_app. right.
    apply list_elem_of_singleton. reflexivity.
  - apply list_elem_of_singleton in Hq as ->.
    destruct (lt p p) eqn:Hpp; [|reflexivity].
    rewrite (lt_asym _ _ Hpp) in Hpp. discriminate.
Qed.

End SortedFacts.

Section LatestFacts.

Context {version : Type}.
Variable version_lt : version -> version -> bool.
Variable find :
  string -> option string -> option (list string)
  -> result (list (@Rezapi.Package version)).

(** X1: when the package manager's [<] on versions is asymmetric and its
    complement transitive, the package [find_latest] returns is one the
    query yielded and no package of the query has a greater version. *)
Theorem find_latest_is_greatest name range_ paths it p q :
  (forall a b, version_lt a b = true -> version_lt b a = false) ->
  (forall a b c, version_lt b a = false -> version_lt c b = false ->
                 version_lt c a = false) ->
  find name range_ None = Ok it ->
  Rezapi.find_latest version_lt find name range_ paths = Ok p ->
  q ∈ it ->
  p ∈ it
  /\ version_lt (Rezapi.pkg_version p) (Rezapi.pkg_version q) = false.
Proof.
  intros Hasym Htrans Hfind Hcall Hq.
  unfold Rezapi.find_latest in Hcall. rewrite Hfind in Hcall.
  simpl in Hcall. rewrite py_index_last in Hcall.
  destruct (last (sorted (Rezapi.by_version version_lt) it)) as [p'|]
    eqn:Hlast; [|discriminate].
  injection Hcall as ->. split.
  - apply (sorted_elem (Rezapi.by_version version_lt)).
    apply last_Some in Hlast as [l' ->].
    apply elem_of_app. right. apply list_elem_of_singleton. reflexivity.
  - apply (sorted_last_greatest (Rezapi.by_version version_lt)) with (l := it);
      unfold Rezapi.by_version; eauto.
Qed.

(** X2: [find_latest] returns a package exactly when the query with the
    default paths yields at least one; an empty answer becomes the package
    manager's [PackageNotFoundError], never an [IndexError], and an error
    of the query is passed on as it is. *)
Theorem find_latest_answers_the_query name range_ paths :
  match find name range_ None with
  | Ok [] =>
      Rezapi.find_latest version_lt find name range_ paths
      = Raise (Rez PackageNotFoundError
                   ("package family not found: " ++ name))
  | Ok (q :: it) =>
      exists p,
        Rezapi.find_latest version_lt find name range_ paths = Ok p
        /\ p ∈ q :: it
  | Raise e => Rezapi.find_latest version_lt find name range_ paths = Raise e
  | Diverge => Rezapi.find_latest version_lt find name range_ paths = Diverge
  end.
Proof.
  pose proof (find_latest_outcome version_lt find name range_ paths) as H.
  destruct (find name range_ None) as [[|q it]|e|]; exact H.
Qed.

End LatestFacts.

Lemma find_latest_is_greatest_witness :
  let pkg v := {| Rezapi.pkg_name := "maya"; Rezapi.pkg_version := v;
                  Rezapi.pkg_context := None |} in
  pkg 2020%Z ∈ [pkg 2018%Z; pkg 2020%Z; pkg 2019%Z]
  /\ (2020 <? 2019)%Z = false.
Proof.
  intros pkg.
  apply (find_latest_is_greatest Z.ltb
           (fun _ _ _ => Ok [pkg 2018%Z; pkg 2020%Z; pkg 2019%Z])
           "maya" None None [pkg 2018%Z; pkg 2020%Z; pkg 2019%Z]
           (pkg 2020%Z) (pkg 2019%Z)).
  - intros a b H. apply Z.ltb_lt in H. apply Z.ltb_ge. lia.
  - intros a b c H1 H2. apply Z.ltb_ge in H1, H2. apply Z.ltb_ge. lia.
  - reflexivity.
  - reflexivity.
  - repeat constructor.
Defined.

(** ** _rezapi.py: request keys *)

Section AppFacts.
Import Rezapi.

Context {version : Type}.
Variable version_str : version -> string.
Variable tools_attr : @Package version -> option (list string).

Lemma str_append_assoc (a b c : string) : (a ++ b) ++ c = a ++ b ++ c.
Proof.
  induction a as [|x a IH]; [reflexivity|].
  change (String x ((a ++ b) ++ c) = String x (a ++ b ++ c)).
  rewrite IH. reflexivity.
Qed.

Lemma split_once_unfold (sep s : string) :
  split_once sep s
  = if String.prefix sep s then Some ("", str_drop (String.length sep) s)
    else match s with
         | EmptyString => None
         | String c s' =>
             match split_once sep s' with
             | Some (before, after) => Some (String c before, after)
             | None => None
             end
         end.
Proof. destruct s; reflexivity. Qed.

Lemma prefix_colons_other (c : ascii) (s : string) :
  Ascii.eqb c ":"%char = false -> String.prefix "::" (String c s) = false.
Proof.
  intros Hc.
  change (String.prefix "::" (String c s))
    with (if ascii_dec ":"%char c then String.prefix ":" s else false).
  destruct (ascii_dec ":"%char c) as [<-|Hne].
  - rewrite Ascii.eqb_refl in Hc. discriminate.
  - reflexivity.
Qed.

Lemma prefix_colons_here (rest : string) :
  String.prefix "::" (String ":" (String ":" rest)) = true.
Proof. destruct rest; reflexivity. Qed.

Lemma split_once_first (alias rest : string) :
  no_colon alias = true ->
  split_once "::" (alias ++ String ":" (String ":" rest))
  = Some (alias, rest).
Proof.
  unfold no_colon. induction alias as [|c alias IH].
  - intros _. rewrite split_once_unfold.
    change ("" ++ String ":" (String ":" rest))
      with (String ":" (String ":" rest)).
    rewrite prefix_colons_here. reflexivity.
  - intros [Hc Halias]%andb_true_iff. apply negb_true_iff in Hc.
    change (String c alias ++ String ":" (String ":" rest))
      with (String c (alias ++ String ":" (String ":" rest))).
    rewrite split_once_unfold, (prefix_colons_other _ _ Hc), (IH Halias).
    reflexivity.
Qed.

Lemma split_once_none (key : string) :
  no_colon key = true -> split_once "::" key = None.
Proof.
  unfold no_colon. induction key as [|c key IH]; [reflexivity|].
  intros [Hc Hkey]%andb_true_iff. apply negb_true_iff in Hc.
  rewrite split_once_unfold, (prefix_colons_other _ _ Hc), (IH Hkey).
  reflexivity.
Qed.

(** X3: for a package that comes from a suite, the application built from
    the key that [uni_request_key] makes for a tool entry has that entry's
    alias as its only tool, provided the alias holds no colon. *)
Theorem RezApp_recovers_the_alias (package : Package) (entry : ToolEntry) :
  is_from_suite package = true ->
  no_colon (tool_alias entry) = true ->
  RezApp_init tools_attr package
    (uni_request_key version_str package (Some entry))
  = Ok {| _package := package;
          _tools := [tool_alias entry];
          _in_suite := true;
          _uni_request_key :=
            uni_request_key version_str package (Some entry) |}.
Proof.
  intros Hsuite Halias. unfold RezApp_init, uni_request_key.
  rewrite Hsuite. cbv zeta.
  rewrite str_append_assoc.
  change ("::" ++ context_name entry ++ "::")
    with (String ":" (String ":" (context_name entry ++ "::"))).
  match goal with
  | |- context [String ":" (String ":" ?ctx) ++ ?rest] =>
      change (String ":" (String ":" ctx) ++ rest)
        with (String ":" (String ":" (ctx ++ rest)))
  end.
  rewrite (split_once_first _ _ Halias). reflexivity.
Qed.

(** X4: for a package that comes from a suite, a key made without a tool
    entry for a package whose name and version hold no colon cannot be
    unpacked: [RezApp] raises [ValueError]. *)
Theorem RezApp_needs_a_tool_entry (package : Package) :
  is_from_suite package = true ->
  no_colon (pkg_name package ++ "==" ++ version_str (pkg_version package))
  = true ->
  RezApp_init tools_attr package (uni_request_key version_str package None)
  = Raise (ValueError "not enough values to unpack (expected 2, got 1)").
Proof.
  intros Hsuite Hkey. unfold RezApp_init, uni_request_key.
  rewrite Hsuite. cbv zeta.
  rewrite (split_once_none _ Hkey). reflexivity.
Qed.

End AppFacts.

Lemma RezApp_recovers_the_alias_witness :
  let maya := {| Rezapi.pkg_name := "maya"; Rezapi.pkg_version := 2020%Z;
                 Rezapi.pkg_context :=
                   Some {| Rezapi.append_sys_path := true;
                           Rezapi.suite_context_name := Some "anim";
                           Rezapi.rxt_environ := [] |} |} in
  let entry := {| Rezapi.tool_alias := "maya_anim";
                  Rezapi.context_name := "anim" |} in
  Rezapi.RezApp_init (fun _ => None) maya
    (Rezapi.uni_request_key (fun _ => "2020") maya (Some entry))
  = Ok {| Rezapi._package := maya;
          Rezapi._tools := ["maya_anim"];
          Rezapi._in_suite := true;
          Rezapi._uni_request_key :=
            Rezapi.uni_request_key (fun _ => "2020") maya (Some entry) |}.
Proof.
  intros maya entry.
  exact (RezApp_recovers_the_alias (fun _ => "2020") (fun _ => None)
           maya entry eq_refl eq_refl).
Defined.

Lemma RezApp_needs_a_tool_entry_witness :
  let maya := {| Rezapi.pkg_name := "maya"; Rezapi.pkg_version := 2020%Z;
                 Rezapi.pkg_context :=
                   Some {| Rezapi.append_sys_path := true;
                           Rezapi.suite_context_name := Some "anim";
                           Rezapi.rxt_environ := [] |} |} in
  Rezapi.RezApp_init (fun _ => None) maya
    (Rezapi.uni_request_key (fun _ => "2020") maya None)
  = Raise (ValueError "not enough values to unpack (expected 2, got 1)").
Proof.
  intros maya.
  exact (RezApp_needs_a_tool_entry (fun _ => "2020") (fun _ => None)
           maya eq_refl eq_refl).
Defined.

(** ** resources.py: paths, the pixmap cache, palettes *)

Section ResourceFacts.
Import Resources.

Variable dirname : string.
Variable os_path_join : string -> list string -> string.
Variable os_path_normpath : string -> string.
Variable os_path_splitext : string -> string * string.

Lemma replace_backslash_clean (s : string) :
  has_backslash (replace_backslash s) = false.
Proof.
  unfold has_backslash in *. induction s as [|c s IH]; [reflexivity|].
  change (Ascii.eqb backslash (if Ascii.eqb c backslash then slash else c)
          || existsb (Ascii.eqb backslash)
               (list_ascii_of_string (replace_backslash s)) = false).
  rewrite IH, orb_false_r.
  destruct (Ascii.eqb c backslash) eqn:Hc; [reflexivity|].
  rewrite Ascii.eqb_sym. exact Hc.
Qed.

(** X5: whatever [os.path.join] and [os.path.normpath] answer, on
    whatever platform, the path [find] returns holds no backslash. *)
Theorem find_has_no_backslash (paths : list string) :
  has_backslash (find dirname os_path_join os_path_normpath paths) = false.
Proof. unfold find. apply replace_backslash_clean. Qed.

(** X6: [pixmap] caches: a second call with the same arguments gives the
    outcome of the first and neither loads a file nor changes the cache,
    whatever the store was before the first call. *)
Theorem pixmap_second_call_is_cached (paths : list string) (st : store) :
  let first := pixmap dirname os_path_join os_path_normpath os_path_splitext
                 paths st in
  pixmap dirname os_path_join os_path_normpath os_path_splitext paths
    (snd first)
  = first.
Proof.
  unfold pixmap.
  destruct (py_index paths (-1)) as [basename|e|]; [|reflexivity..].
  destruct (os_path_splitext basename) as [name ext].
  destruct (_cache st !! paths) as [pm|] eqn:Hhit; simpl.
  - rewrite Hhit. reflexivity.
  - rewrite lookup_insert_eq. reflexivity.
Qed.

End ResourceFacts.

Section PaletteLookupFacts.
Import Resources.

Lemma py_eq_str_name (k : pyval) (name : string) :
  py_eq k (VStr name) = true -> k = VStr name.
Proof.
  destruct k; simpl; try discriminate.
  intros H. apply String.eqb_eq in H. congruence.
Qed.

Lemma py_eq_same_name (k' k : pyval) (name : string) :
  py_eq k' k = true -> py_eq k' (VStr name) = py_eq k (VStr name).
Proof.
  destruct k', k; simpl; try discriminate; try reflexivity.
  intros H. apply String.eqb_eq in H. congruence.
Qed.

Lemma dict_get_set {V : Type} (name : string) (k : pyval) (v : V)
    (d : dict V) :
  dict_get (VStr name) (dict_set k v d)
  = if py_eq k (VStr name) then Some v else dict_get (VStr name) d.
Proof.
  induction d as [|[k' v'] d IH]; simpl; [reflexivity|].
  destruct (py_eq k' k) eqn:Hkk; simpl.
  - rewrite (py_eq_same_name _ _ name Hkk).
    destruct (py_eq k (VStr name)); reflexivity.
  - rewrite IH.
    destruct (py_eq k' (VStr name)) eqn:Hk'; [|reflexivity].
    destruct (py_eq k (VStr name)) eqn:Hk; [|reflexivity].
    apply py_eq_str_name in Hk', Hk. subst.
    simpl in Hkk. rewrite String.eqb_refl in Hkk. discriminate.
Qed.

Lemma dict_get_update {V : Type} (name : string) (other d : dict V) :
  dict_get (VStr name) (dict_update d other)
  = fold_left (fun found kv =>
                 if py_eq (fst kv) (VStr name) then Some (snd kv) else found)
              other (dict_get (VStr name) d).
Proof.
  unfold dict_update. revert d.
  induction other as [|[k v] other IH]; intros d; simpl; [reflexivity|].
  rewrite IH, dict_get_set. reflexivity.
Qed.

Lemma last_item_or {V : Type} (k : pyval) (items : list (pyval * V))
    (found : option V) :
  fold_left (fun found kv => if py_eq (fst kv) k then Some (snd kv) else found)
            items found
  = match last_item k items with
    | Some v => Some v
    | None => found
    end.
Proof.
  unfold last_item. revert found.
  induction items as [|[k' v] items IH] using rev_ind; intros found;
    [reflexivity|].
  rewrite !fold_left_app. simpl.
  destruct (py_eq k' k); [reflexivity|]. apply IH.
Qed.

(** X7: looking a palette up by name in what [load_palettes] returns gives
    the palette configured under that name (the last one, should the
    configured items repeat the name), and the built-in palette of that
    name when none is configured. *)
Theorem load_palettes_lookup (config_palettes : option (dict palette))
    (name : string) :
  dict_get (VStr name) (load_palettes config_palettes)
  = match last_item (VStr name) (default [] config_palettes) with
    | Some configured => Some configured
    | None =>
        if String.eqb "dark" name then Some dark
        else if String.eqb "light" name then Some light
        else None
    end.
Proof.
  unfold load_palettes.
  destruct config_palettes as [[|kv more]|]; try reflexivity.
  rewrite dict_get_update, last_item_or. reflexivity.
Qed.

End PaletteLookupFacts.

(** ** delegates.py: opening and closing the version editor *)

Section EditorFacts.
Import Delegates.

Lemma list_index_subscript (x : string) (l : list string) (i : nat) :
  list_index x l = Some i -> py_index l (Z.of_nat i) = Ok x.
Proof.
  revert i. induction l as [|y l IH]; intros i; simpl; [discriminate|].
  destruct (String.eqb y x) eqn:Hy.
  - intros [= <-]. apply String.eqb_eq in Hy. subst y.
    unfold py_index. simpl. reflexivity.
  - destruct (list_index x l) as [j|] eqn:Hj; simpl; [|discriminate].
    intros [= <-]. specialize (IH j eq_refl).
    unfold py_index in *.
    replace (Z.of_nat (S j) <? 0)%Z with false
      by (symmetry; apply Z.ltb_ge; lia).
    replace (Z.of_nat j <? 0)%Z with false in IH
      by (symmetry; apply Z.ltb_ge; lia).
    destruct ((0 <=? Z.of_nat j)%Z && (Z.of_nat j <? Z.of_nat (length l))%Z)
      eqn:Hin; [|discriminate].
    apply andb_true_iff in Hin as [_ Hlt]. apply Z.ltb_lt in Hlt.
    replace ((0 <=? Z.of_nat (S j))%Z
             && (Z.of_nat (S j) <? Z.of_nat (length (y :: l)))%Z) with true.
    + rewrite Nat2Z.id in *. simpl. exact IH.
    + symmetry. apply andb_true_iff. split.
      * apply Z.leb_le. lia.
      * apply Z.ltb_lt. simpl length. lia.
Qed.

Lemma list_index_absent (x : string) (l : list string) :
  list_index x l = None <-> x ∉ l.
Proof.
  induction l as [|y l IH]; simpl.
  - split; [intros _ H; inversion H | reflexivity].
  - rewrite not_elem_of_cons. destruct (String.eqb y x) eqn:Hy.
    + apply String.eqb_eq in Hy. split; [discriminate|]. intros [H _].
      congruence.
    + apply String.eqb_neq in Hy.
      destruct (list_index x l); simpl.
      * split; [discriminate|]. intros [_ H]. apply IH in H. discriminate.
      * split; [|reflexivity]. intros _. split; [congruence|].
        apply IH. reflexivity.
Qed.

(** X8: an editor that [setEditorData] has filled and that is closed with
    its selection untouched makes [setModelData] read back the displayed
    version: nothing is patched when that version is empty or is the
    model's default, and otherwise the displayed version itself is
    patched. *)
Theorem editor_untouched_reads_display (repr : string -> string)
    (editor editor' : QComboBox) (display : string) (d d' : delegate)
    (h : heap) :
  setEditorData repr editor (model h) display d = (Ok tt, editor', d') ->
  _default d' = Some display
  /\ setModelData (currentIndex editor') h
     = if String.eqb display "" || String.eqb display (default (model h))
       then (Ok tt, h)
       else (Ok tt,
             {| ctrl_patched :=
                  (ctrl_patched h
                   ++ [(family (model h) ++ "==" ++ display)%string])%list;
                model := model h |}).
Proof.
  unfold setEditorData.
  destruct (list_index display (versions (model h))) as [i|] eqn:Hi;
    [|discriminate].
  intros [= <- <-]. split; [reflexivity|].
  unfold setModelData. simpl.
  rewrite (list_index_subscript _ _ _ Hi). reflexivity.
Qed.

(** X9: when the displayed version is not among the model's versions,
    [setEditorData] raises [ValueError] after it has filled the editor:
    the delegate keeps its default and does not announce the editor. *)
Theorem setEditorData_unknown_display (repr : string -> string)
    (editor : QComboBox) (m : ModelData) (display : string) (d : delegate) :
  display ∉ versions m ->
  exists text,
    setEditorData repr editor m display d
    = (Raise (ValueError text), addItems (versions m) editor, d).
Proof.
  intros Habsent. apply list_index_absent in Habsent.
  unfold setEditorData. rewrite Habsent. eauto.
Qed.

End EditorFacts.

Lemma editor_untouched_reads_display_witness :
  Delegates._default
    {| Delegates._changed := true; Delegates._default := Some "2019.0.0";
       Delegates.emitted := [Delegates.editor_created] |}
  = Some "2019.0.0"
  /\ Delegates.setModelData 1 Delegates.maya_row
     = (Ok tt, Delegates.maya_row).
Proof.
  exact (editor_untouched_reads_display Delegates.quoted
           Delegates.new_QComboBox
           {| Delegates.items := ["2018.0.1"; "2019.0.0"; "2020.0.0"];
              Delegates.currentIndex := 1 |}
           "2019.0.0" Delegates.new_Package
           {| Delegates._changed := true;
              Delegates._default := Some "2019.0.0";
              Delegates.emitted := [Delegates.editor_created] |}
           Delegates.maya_row eq_refl).
Defined.

Lemma setEditorData_unknown_display_witness :
  exists text,
    Delegates.setEditorData Delegates.quoted Delegates.new_QComboBox
      (Delegates.model Delegates.maya_row) "2021.0.0" Delegates.new_Package
    = (Raise (ValueError text),
       Delegates.addItems (Delegates.versions
                             (Delegates.model Delegates.maya_row))
         Delegates.new_QComboBox,
       Delegates.new_Package).
Proof.
  apply (setEditorData_unknown_display Delegates.quoted
           Delegates.new_QComboBox
           (Delegates.model Delegates.maya_row) "2021.0.0"
           Delegates.new_Package).
  intros H. repeat (apply elem_of_cons in H as [H|H]; [discriminate|]).
  inversion H.
Defined.

Lemma wait_truthy_on_value_witness :
  TestUtil.wait [(400%Z, VStr "busy"); (700%Z, VStr "ready")] (VStr "ready")
    1000
  = if TestUtil.fires [(400%Z, VStr "busy"); (700%Z, VStr "ready")]
         (VStr "ready") 1000
    then Ok tt
    else Raise (PyException "Signal waiting timeout.").
Proof.
  apply (wait_truthy_on_value
           [(400%Z, VStr "busy"); (700%Z, VStr "ready")] (VStr "ready") 1000).
  - unfold TestUtil.INT_MAX. lia.
  - right. reflexivity.
  - repeat constructor. simpl. lia.
Defined.

(** ** cli.py: rolling the environment back *)

Section SplitFacts.
Import Cli.

Variable sep : ascii.

Lemma split_unfold (c : ascii) (s : string) :
  split sep (String c s)
  = if Ascii.eqb c sep then "" :: split sep s
    else match split sep s with
         | piece :: pieces => String c piece :: pieces
         | [] => [String c ""]
         end.
Proof. reflexivity. Qed.

Lemma split_not_nil (s : string) : split sep s <> [].
Proof.
  induction s as [|c s IH]; [discriminate|].
  rewrite split_unfold. destruct (Ascii.eqb c sep); [discriminate|].
  destruct (split sep s); [contradiction|discriminate].
Qed.

Lemma join_cons (piece : string) (pieces : list string) :
  pieces <> [] ->
  join sep (piece :: pieces) = piece ++ String sep (join sep pieces).
Proof.
  destruct pieces as [|p pieces]; [contradiction|]. intros _. reflexivity.
Qed.

(** Joining what was split gives the string back. *)
Lemma join_split (s : string) : join sep (split sep s) = s.
Proof.
  induction s as [|c s IH]; [reflexivity|].
  rewrite split_unfold. destruct (Ascii.eqb c sep) eqn:Hc.
  - apply Ascii.eqb_eq in Hc. subst c.
    rewrite join_cons by apply split_not_nil. rewrite IH. reflexivity.
  - pose proof (split_not_nil s) as Hne.
    destruct (split sep s) as [|piece pieces]; [contradiction|].
    destruct pieces as [|p pieces].
    + simpl in IH. unfold join. simpl. rewrite <- IH. reflexivity.
    + rewrite join_cons in IH by discriminate.
      rewrite join_cons by discriminate.
      change (String c piece ++ String sep (join sep (p :: pieces)))
        with (String c (piece ++ String sep (join sep (p :: pieces)))).
      rewrite IH. reflexivity.
Qed.

(** No piece of a split holds the separator. *)
Lemma split_pieces (s : string) :
  Forall (fun piece => str_has sep piece = false) (split sep s).
Proof.
  induction s as [|c s IH]; [repeat constructor|].
  rewrite split_unfold. destruct (Ascii.eqb c sep) eqn:Hc.
  - constructor; [reflexivity|exact IH].
  - destruct (split sep s) as [|piece pieces]; [repeat constructor|].
    + unfold str_has. simpl. rewrite Ascii.eqb_sym, Hc. reflexivity.
    + inversion IH as [|? ? Hpiece Hpieces]; subst.
      constructor; [|exact Hpieces].
      unfold str_has in *. simpl. rewrite Ascii.eqb_sym, Hc. exact Hpiece.
Qed.

Lemma split_no_sep (s : string) : str_has sep s = false -> split sep s = [s].
Proof.
  unfold str_has. induction s as [|c s IH]; [reflexivity|].
  cbn [list_ascii_of_string existsb]. intros [Hc Hs]%orb_false_iff.
  rewrite split_unfold, Ascii.eqb_sym, Hc, (IH Hs). reflexivity.
Qed.

Lemma split_append (piece rest : string) :
  str_has sep piece = false ->
  split sep (piece ++ String sep rest) = piece :: split sep rest.
Proof.
  unfold str_has. induction piece as [|c piece IH].
  - intros _. change ("" ++ String sep rest) with (String sep rest).
    rewrite split_unfold, Ascii.eqb_refl. reflexivity.
  - cbn [list_ascii_of_string existsb]. intros [Hc Hpiece]%orb_false_iff.
    change (String c piece ++ String sep rest)
      with (String c (piece ++ String sep rest)).
    rewrite split_unfold, Ascii.eqb_sym, Hc, (IH Hpiece). reflexivity.
Qed.

(** Splitting what was joined gives the pieces back, when there is a piece
    and no piece holds the separator. *)
Lemma split_join (pieces : list string) :
  pieces <> [] ->
  Forall (fun piece => str_has sep piece = false) pieces ->
  split sep (join sep pieces) = pieces.
Proof.
  induction pieces as [|piece pieces IH]; [contradiction|].
  intros _ Hall. inversion Hall as [|? ? Hpiece Hpieces]; subst.
  destruct pieces as [|p pieces].
  - unfold join. simpl. apply split_no_sep, Hpiece.
  - rewrite join_cons by discriminate.
    rewrite split_append by exact Hpiece.
    rewrite IH by (discriminate || exact Hpieces). reflexivity.
Qed.

End SplitFacts.

Section RollbackFacts.
Import Cli.

Variable w : World.

Lemma str_in_elem (x : string) (l : list string) :
  str_in x l = true <-> x ∈ l.
Proof.
  unfold str_in. rewrite existsb_exists. split.
  - intros (y & Hy & Heq). apply String.eqb_eq in Heq. subst.
    apply list_elem_of_In, Hy.
  - intros Hx. exists x. split; [apply list_elem_of_In, Hx|].
    apply String.eqb_refl.
Qed.

Lemma filter_all {A : Type} (f : A -> bool) (l : list A) :
  (forall x, x ∈ l -> f x = true) -> List.filter f l = l.
Proof.
  induction l as [|x l IH]; [reflexivity|]. intros Hall. simpl.
  rewrite (Hall x) by (apply elem_of_cons; left; reflexivity).
  rewrite IH; [reflexivity|].
  intros y Hy. apply Hall, elem_of_cons. right. exact Hy.
Qed.

Lemma rollback_lookup (history changed : gmap string string) (key : string) :
  rollback w history changed !! key
  = match changed !! key with
    | None => None
    | Some value =>
        let roll_paths :=
          List.filter
            (fun path =>
               negb (str_in path
                       (split (pathsep w) (default "" (history !! key)))))
            (split (pathsep w) value) in
        match roll_paths with
        | [] => None
        | _ => Some (join (pathsep w) roll_paths)
        end
    end.
Proof.
  unfold rollback. rewrite map_lookup_imap.
  destruct (changed !! key) as [value|]; reflexivity.
Qed.

(** X11: a variable that [rollback] keeps is one of the process
    environment, and its value splits into exactly those paths of the
    process value, in their order, that the context's value for the
    variable does not list. *)
Theorem rollback_keeps_foreign_paths
    (history changed : gmap string string) (key rolled : string) :
  rollback w history changed !! key = Some rolled ->
  exists value,
    changed !! key = Some value
    /\ split (pathsep w) rolled
       = List.filter
           (fun path =>
              negb (str_in path
                      (split (pathsep w) (default "" (history !! key)))))
           (split (pathsep w) value).
Proof.
  rewrite rollback_lookup.
  destruct (changed !! key) as [value|]; [|discriminate].
  cbv zeta. intros H. exists value. split; [reflexivity|].
  destruct (List.filter _ (split (pathsep w) value)) as [|p ps] eqn:Hroll;
    [discriminate|].
  injection H as <-. apply split_join; [discriminate|].
  rewrite <- Hroll.
  pose proof (split_pieces (pathsep w) value) as Hpieces.
  rewrite Forall_forall in *. intros piece Hin.
  apply list_elem_of_In, filter_In in Hin as [Hin _].
  apply Hpieces, list_elem_of_In, Hin.
Qed.

(** X12: a variable the context does not set, and whose value has no empty
    path, is rolled back as it is. *)
Theorem rollback_keeps_untouched
    (history changed : gmap string string) (key value : string) :
  history !! key = None ->
  changed !! key = Some value ->
  "" ∉ split (pathsep w) value ->
  rollback w history changed !! key = Some value.
Proof.
  intros Hhist Hchanged Hempty.
  rewrite rollback_lookup, Hchanged, Hhist. cbv zeta.
  change (split (pathsep w) (default "" None)) with [""].
  assert (Hall : List.filter
                   (fun path => negb (str_in path [""]))
                   (split (pathsep w) value)
                 = split (pathsep w) value).
  { apply filter_all. intros path Hpath.
    destruct (str_in path [""]) eqn:Hin; [|reflexivity].
    apply str_in_elem, list_elem_of_singleton in Hin. subst path.
    contradiction. }
  rewrite Hall.
  pose proof (split_not_nil (pathsep w) value) as Hne.
  destruct (split (pathsep w) value) as [|p ps] eqn:Hsplit; [contradiction|].
  rewrite <- Hsplit, join_split. reflexivity.
Qed.

(** X13: a variable all of whose paths the context lists is dropped. *)
Theorem rollback_drops_context_paths
    (history changed : gmap string string) (key value : string) :
  changed !! key = Some value ->
  Forall (fun path =>
            path ∈ split (pathsep w) (default "" (history !! key)))
         (split (pathsep w) value) ->
  rollback w history changed !! key = None.
Proof.
  intros Hchanged Hall. rewrite rollback_lookup, Hchanged. cbv zeta.
  replace (List.filter _ (split (pathsep w) value)) with (@nil string);
    [reflexivity|].
  symmetry. induction Hall as [|p ps Hp _ IH]; [reflexivity|].
  simpl. apply str_in_elem in Hp. rewrite Hp. exact IH.
Qed.

End RollbackFacts.

Lemma rollback_keeps_foreign_paths_witness :
  exists value,
    ({[ "PATH" := "/studio/maya/bin:/usr/bin:/bin" ]} : gmap string string)
      !! "PATH" = Some value
    /\ Cli.split (Cli.pathsep Cli.studio) "/usr/bin:/bin"
       = List.filter
           (fun path =>
              negb (Cli.str_in path
                      (Cli.split (Cli.pathsep Cli.studio)
                         (default ""
                            (({[ "PATH" := "/studio/maya/bin" ]}
                              : gmap string string) !! "PATH")))))
           (Cli.split (Cli.pathsep Cli.studio) value).
Proof.
  apply (rollback_keeps_foreign_paths Cli.studio
           {[ "PATH" := "/studio/maya/bin" ]}
           {[ "PATH" := "/studio/maya/bin:/usr/bin:/bin" ]}
           "PATH" "/usr/bin:/bin").
  vm_compute. reflexivity.
Defined.

Lemma rollback_keeps_untouched_witness :
  Cli.rollback Cli.studio {[ "PATH" := "/studio/maya/bin" ]}
    {[ "PATH" := "/studio/maya/bin:/usr/bin:/bin"; "HOME" := "/home/ana" ]}
    !! "HOME"
  = Some "/home/ana".
Proof.
  apply (rollback_keeps_untouched Cli.studio
           {[ "PATH" := "/studio/maya/bin" ]}
           {[ "PATH" := "/studio/maya/bin:/usr/bin:/bin";
              "HOME" := "/home/ana" ]}
           "HOME" "/home/ana").
  - vm_compute. reflexivity.
  - vm_compute. reflexivity.
  - intros H. vm_compute in H. apply list_elem_of_singleton in H.
    discriminate.
Defined.

Lemma rollback_drops_context_paths_witness :
  Cli.rollback Cli.studio {[ "REZ_USED" := "/opt/rez" ]}
    {[ "REZ_USED" := "/opt/rez"; "HOME" := "/home/ana" ]}
    !! "REZ_USED"
  = None.
Proof.
  apply (rollback_drops_context_paths Cli.studio
           {[ "REZ_USED" := "/opt/rez" ]}
           {[ "REZ_USED" := "/opt/rez"; "HOME" := "/home/ana" ]}
           "REZ_USED" "/opt/rez").
  - vm_compute. reflexivity.
  - vm_compute. repeat constructor.
Defined.

(** ** cli.py: the configuration module *)

Section ConfigFacts.
Import Cli.

Lemma dir_elem (module : gmap string pyval) (key : string) :
  key ∈ dir module <-> is_Some (module !! key).
Proof.
  unfold dir. rewrite sorted_elem, list_elem_of_fmap. split.
  - intros ([k v] & -> & Hkv). apply elem_of_map_to_list in Hkv. eauto.
  - intros [v Hv]. exists (key, v). split; [reflexivity|].
    apply elem_of_map_to_list, Hv.
Qed.

Lemma prefix_empty (s : string) : String.prefix "" s = true.
Proof. destruct s; reflexivity. Qed.

Lemma prefix_underscore (s : string) : String.prefix "_" ("_" ++ s) = true.
Proof.
  change (String.prefix "_" ("_" ++ s))
    with (if ascii_dec "_"%char "_"%char then String.prefix "" s else false).
  destruct (ascii_dec "_"%char "_"%char); [apply prefix_empty|congruence].
Qed.

Lemma dunder_underscore (s : string) :
  dunder s = true -> String.prefix "_" s = true.
Proof.
  unfold dunder. destruct s as [|c s]; [discriminate|].
  change (String.prefix "__" (String c s))
    with (if ascii_dec "_"%char c then String.prefix "_" s else false).
  change (String.prefix "_" (String c s))
    with (if ascii_dec "_"%char c then String.prefix "" s else false).
  destruct (ascii_dec "_"%char c); [|discriminate].
  intros _. apply prefix_empty.
Qed.

Lemma backup_frame (module : gmap string pyval) (member key : string) :
  String.prefix "_" key = false -> backup module member !! key = module !! key.
Proof.
  intros Hkey. unfold backup.
  destruct (dunder member); [reflexivity|].
  destruct (module !! member) as [v|]; [|reflexivity].
  apply lookup_insert_ne. intros <-.
  rewrite prefix_underscore in Hkey. discriminate.
Qed.

Lemma backups_frame (members : list string) (module : gmap string pyval)
    (key : string) :
  String.prefix "_" key = false ->
  fold_left backup members module !! key = module !! key.
Proof.
  intros Hkey. revert module.
  induction members as [|m members IH]; intros module; simpl; [reflexivity|].
  rewrite IH. apply backup_frame, Hkey.
Qed.

Lemma backups_kept (members : list string) (module : gmap string pyval)
    (member : string) (value : pyval) :
  String.prefix "_" member = false ->
  module !! member = Some value ->
  module !! ("_" ++ member) = Some value ->
  fold_left backup members module !! ("_" ++ member) = Some value.
Proof.
  intros Hmember. revert module.
  induction members as [|m members IH]; intros module Hm Hbackup; simpl;
    [exact Hbackup|].
  apply IH.
  - rewrite backup_frame by exact Hmember. exact Hm.
  - unfold backup. destruct (dunder m); [exact Hbackup|].
    destruct (module !! m) as [v|] eqn:Hv; [|exact Hbackup].
    destruct (decide (m = member)) as [->|Hne].
    + rewrite lookup_insert_eq. congruence.
    + rewrite lookup_insert_ne; [exact Hbackup|].
      intros Heq. injection Heq as Heq. contradiction.
Qed.

Lemma backups_made (members : list string) (module : gmap string pyval)
    (member : string) (value : pyval) :
  member ∈ members ->
  String.prefix "_" member = false ->
  module !! member = Some value ->
  fold_left backup members module !! ("_" ++ member) = Some value.
Proof.
  intros Hin Hmember. revert module.
  induction members as [|m members IH]; intros module Hm; [inversion Hin|].
  simpl. destruct (decide (m = member)) as [->|Hne].
  - apply backups_kept; [exact Hmember| |].
    + rewrite backup_frame by exact Hmember. exact Hm.
    + unfold backup.
      destruct (dunder member) eqn:Hd.
      * apply dunder_underscore in Hd. congruence.
      * rewrite Hm. apply lookup_insert_eq.
  - apply elem_of_cons in Hin as [->|Hin]; [contradiction|].
    apply IH; [exact Hin|].
    rewrite backup_frame by exact Hmember. exact Hm.
Qed.

(** X14: [_patch_allzparkconfig] leaves every attribute whose name does not
    start with an underscore as it is, and stores a copy of its value under
    the name with an underscore in front. *)
Theorem patch_allzparkconfig_backs_up (st : state) (member : string)
    (value : pyval) :
  allzparkconfig st !! member = Some value ->
  String.prefix "_" member = false ->
  let st' := snd (_patch_allzparkconfig st) in
  fst (_patch_allzparkconfig st) = Ok tt
  /\ allzparkconfig st' !! member = Some value
  /\ allzparkconfig st' !! ("_" ++ member) = Some value.
Proof.
  intros Hm Hmember. unfold _patch_allzparkconfig. simpl.
  split; [reflexivity|].
  change (fold_left _ (dir (allzparkconfig st)) (allzparkconfig st))
    with (fold_left backup (dir (allzparkconfig st)) (allzparkconfig st)).
  split.
  - rewrite backups_frame by exact Hmember. exact Hm.
  - apply backups_made; [|exact Hmember|exact Hm].
    apply dir_elem. eauto.
Qed.

Lemma override_lookup (mod_ module : gmap string pyval) (k key : string) :
  override mod_ module k !! key
  = if bool_decide (k = key) && negb (dunder key)
    then match mod_ !! key with
         | Some value => Some value
         | None => module !! key
         end
    else module !! key.
Proof.
  unfold override. case_bool_decide as Hk; simpl.
  - subst k. destruct (dunder key); simpl; [reflexivity|].
    destruct (mod_ !! key); [apply lookup_insert_eq|reflexivity].
  - destruct (dunder k); [reflexivity|].
    destruct (mod_ !! k); [|reflexivity].
    apply lookup_insert_ne, Hk.
Qed.

Lemma overrides_lookup (mod_ : gmap string pyval) (keys : list string)
    (module : gmap string pyval) (key : string) :
  fold_left (override mod_) keys module !! key
  = if bool_decide (key ∈ keys) && negb (dunder key)
    then match mod_ !! key with
         | Some value => Some value
         | None => module !! key
         end
    else module !! key.
Proof.
  revert module. induction keys as [|k keys IH]; intros module.
  - rewrite bool_decide_eq_false_2 by apply not_elem_of_nil. reflexivity.
  - cbn [fold_left]. rewrite IH, override_lookup.
    destruct (decide (k = key)) as [->|Hne].
    + rewrite (bool_decide_eq_true_2 (key = key)) by reflexivity.
      rewrite (bool_decide_eq_true_2 (key ∈ key :: keys))
        by (apply elem_of_cons; left; reflexivity).
      destruct (dunder key); simpl.
      * rewrite andb_false_r. reflexivity.
      * rewrite andb_true_r.
        destruct (mod_ !! key); destruct (bool_decide _); reflexivity.
    + rewrite (bool_decide_eq_false_2 (k = key)) by exact Hne. simpl.
      assert (Hiff : bool_decide (key ∈ k :: keys) = bool_decide (key ∈ keys)).
      { apply bool_decide_ext. rewrite elem_of_cons. split; [|auto].
        intros [->|H]; [contradiction|exact H]. }
      rewrite Hiff. reflexivity.
Qed.

(** X15: when [_load_userconfig] returns, it has read the file named on
    the command line, else the one ALLZPARK_CONFIG_FILE names, else the one
    in the home directory, and an attribute of allzparkconfig has the value
    the file gives it exactly when the attribute existed before, is no
    dunder name, and the file defines it; every other attribute is as
    before and none is added. *)
Theorem load_userconfig_overrides (w : World) (fname : option string)
    (st : state) (f : string) :
  fst (_load_userconfig w fname st) = Ok f ->
  f = config_name w fname st
  /\ exists defined,
       exec_config w f = Ok defined
       /\ forall key,
            allzparkconfig (snd (_load_userconfig w fname st)) !! key
            = match allzparkconfig st !! key, defined !! key with
              | Some old, Some value =>
                  if dunder key then Some old else Some value
              | old, _ => old
              end.
Proof.
  unfold _load_userconfig, getenv, try_except, lift, emit, modify, get, raise.
  unfold mbind, M_bind, mret, M_ret. cbn beta iota.
  assert (Hname : forall st1 r,
             (match fname with
              | Some f0 =>
                  if String.eqb f0 ""
                  then fun st0 : state =>
                         (Ok (default (home_config w)
                                (os_environ st0 !! "ALLZPARK_CONFIG_FILE")),
                          st0)
                  else fun st0 : state => (Ok f0, st0)
              | None =>
                  fun st0 : state =>
                    (Ok (default (home_config w)
                           (os_environ st0 !! "ALLZPARK_CONFIG_FILE")),
                     st0)
              end) st = (r, st1) ->
             r = Ok (config_name w fname st) /\ st1 = st).
  { intros st1 r. unfold config_name.
    destruct fname as [[|c f0]|]; simpl; intros [= <- <-]; auto. }
  match goal with
  | |- context [match ?m st with _ => _ end] =>
      destruct (m st) as [r st1] eqn:Hm
  end.
  apply Hname in Hm as [-> ->]. cbn beta iota.
  set (name := config_name w fname st).
  destruct (exec_config w name) as [defined|e|] eqn:Hexec; cbn beta iota.
  - cbn [fst snd]. intros [= <-]. split; [reflexivity|].
    exists defined. split; [exact Hexec|]. intros key.
    cbn [allzparkconfig set_allzparkconfig set_trace].
    change (fold_left _ (dir (allzparkconfig st)) (allzparkconfig st))
      with (fold_left (override (defined ∪ {[ "__file__" := VStr name ]}))
              (dir (allzparkconfig st)) (allzparkconfig st)).
    rewrite overrides_lookup.
    case_bool_decide as Hdir; simpl.
    + apply dir_elem in Hdir as [old Hold]. rewrite Hold.
      destruct (dunder key) eqn:Hd; simpl;
        [destruct (defined !! key); reflexivity|].
      assert (Hkey : (defined ∪ {[ "__file__" := VStr name ]}) !! key
                     = defined !! key).
      { rewrite lookup_union, lookup_singleton_ne.
        - destruct (defined !! key); reflexivity.
        - intros <-. discriminate. }
      rewrite Hkey. destruct (defined !! key); reflexivity.
    + destruct (allzparkconfig st !! key) as [old|] eqn:Hold;
        [|reflexivity].
      exfalso. apply Hdir, dir_elem. eauto.
  - destruct (is_Exception e); [destruct (is_IOError e)|]; discriminate.
  - discriminate.
Qed.

End ConfigFacts.

Lemma patch_allzparkconfig_backs_up_witness :
  fst (Cli._patch_allzparkconfig Cli.studio_start) = Ok tt
  /\ Cli.allzparkconfig (snd (Cli._patch_allzparkconfig Cli.studio_start))
       !! "profiles" = Some (VList [])
  /\ Cli.allzparkconfig (snd (Cli._patch_allzparkconfig Cli.studio_start))
       !! ("_" ++ "profiles") = Some (VList []).
Proof.
  apply (patch_allzparkconfig_backs_up Cli.studio_start "profiles" (VList [])).
  - vm_compute. reflexivity.
  - vm_compute. reflexivity.
Defined.

Lemma load_userconfig_overrides_witness :
  let w := Cli.with_exec_config
             (fun _ => Ok {[ "profiles" := VList [VStr "alita"];
                             "colour" := VStr "red" ]})
             Cli.studio in
  "/home/ana/allzparkconfig.py" = Cli.config_name w None Cli.studio_start
  /\ exists defined,
       Cli.exec_config w "/home/ana/allzparkconfig.py" = Ok defined
       /\ forall key,
            Cli.allzparkconfig
              (snd (Cli._load_userconfig w None Cli.studio_start)) !! key
            = match Cli.allzparkconfig Cli.studio_start !! key,
                    defined !! key with
              | Some old, Some value =>
                  if Cli.dunder key then Some old else Some value
              | old, _ => old
              end.
Proof.
  intros w.
  apply (load_userconfig_overrides w None Cli.studio_start
           "/home/ana/allzparkconfig.py").
  vm_compute. reflexivity.
Defined.

(** ** cli.py: looking for Rez's binaries *)

Section SearchFacts.
Import Cli.

Variable w : World.

(** X16: when the directory the search stands in has the binaries
    directory, but that directory lacks one of the expected files or the
    marker of a production install, the search never leaves it: no number
    of rounds brings [_find_rez_bin_in_context] to an answer. *)
Theorem search_rez_bin_hangs (rounds : nat) (current : string)
    (entries content : list string) :
  os_listdir w current = Ok entries ->
  str_in (bin_dir w) entries = true ->
  os_listdir w (os_path_join w current (bin_dir w)) = Ok content ->
  forallb (fun f => str_in f content) (feature w)
  && validate w (os_path_join w (os_path_join w current (bin_dir w)) "rez")
  = false ->
  search_rez_bin w rounds current = Diverge.
Proof.
  intros Hentries Hbin Hcontent Hfeature.
  induction rounds as [|rounds IH]; [reflexivity|].
  simpl. rewrite Hentries. simpl. rewrite Hbin. simpl.
  rewrite Hcontent. simpl. rewrite Hfeature. exact IH.
Qed.

(** X17: a path that the search returns is the file rez in a binaries
    directory that lists all the expected files, and the marker of a
    production install exists beside it. *)
Theorem search_rez_bin_sound (rounds : nat) (current bin_path : string) :
  search_rez_bin w rounds current = Ok (Some bin_path) ->
  exists directory content,
    bin_path = os_path_join w (os_path_join w directory (bin_dir w)) "rez"
    /\ os_listdir w (os_path_join w directory (bin_dir w)) = Ok content
    /\ forallb (fun f => str_in f content) (feature w) = true
    /\ os_path_exists w (os_path_join w bin_path ".rez_production_install")
       = true.
Proof.
  revert current. induction rounds as [|rounds IH]; intros current;
    [discriminate|].
  simpl. destruct (os_listdir w current) as [entries|e|]; simpl;
    [|discriminate..].
  destruct (str_in (bin_dir w) entries); simpl.
  - destruct (os_listdir w (os_path_join w current (bin_dir w)))
      as [content|e|] eqn:Hcontent; simpl; [|discriminate..].
    destruct (forallb _ (feature w)) eqn:Hfeature; simpl; [|apply IH].
    destruct (validate w _) eqn:Hvalid; [|apply IH].
    intros [= <-]. exists current, content. auto.
  - destruct (String.eqb current (os_path_dirname w current));
      [discriminate|apply IH].
Qed.

(** X18: the search gives up with [None] only at a directory that is its
    own parent and has no binaries directory. *)
Theorem search_rez_bin_gives_up_at_the_root (rounds : nat) (current : string) :
  search_rez_bin w rounds current = Ok None ->
  exists root entries,
    os_listdir w root = Ok entries
    /\ str_in (bin_dir w) entries = false
    /\ os_path_dirname w root = root.
Proof.
  revert current. induction rounds as [|rounds IH]; intros current;
    [discriminate|].
  simpl. destruct (os_listdir w current) as [entries|e|] eqn:Hentries; simpl;
    [|discriminate..].
  destruct (str_in (bin_dir w) entries) eqn:Hbin; simpl.
  - destruct (os_listdir w (os_path_join w current (bin_dir w)))
      as [content|e|]; simpl; [|discriminate..].
    destruct (forallb _ (feature w) && validate w _); [discriminate|apply IH].
  - destruct (String.eqb current (os_path_dirname w current)) eqn:Hroot;
      [|apply IH].
    intros _. apply String.eqb_eq in Hroot. exists current, entries. auto.
Qed.

End SearchFacts.

Lemma search_rez_bin_hangs_witness :
  Cli.search_rez_bin Cli.studio_files 5 "/venv" = Diverge.
Proof.
  apply (search_rez_bin_hangs Cli.studio_files 5 "/venv" ["bin"; "lib"]
           ["python"; "pip"]); reflexivity.
Defined.

Lemma search_rez_bin_sound_witness :
  exists directory content,
    "/rez/bin/rez"
    = Cli.os_path_join Cli.studio_files
        (Cli.os_path_join Cli.studio_files directory
           (Cli.bin_dir Cli.studio_files)) "rez"
    /\ Cli.os_listdir Cli.studio_files
         (Cli.os_path_join Cli.studio_files directory
            (Cli.bin_dir Cli.studio_files)) = Ok content
    /\ forallb (fun f => Cli.str_in f content) (Cli.feature Cli.studio_files)
       = true
    /\ Cli.os_path_exists Cli.studio_files
         (Cli.os_path_join Cli.studio_files "/rez/bin/rez"
            ".rez_production_install")
       = true.
Proof.
  apply (search_rez_bin_sound Cli.studio_files 5 "/rez" "/rez/bin/rez").
  reflexivity.
Defined.

Lemma search_rez_bin_gives_up_at_the_root_witness :
  exists root entries,
    Cli.os_listdir Cli.studio_files root = Ok entries
    /\ Cli.str_in (Cli.bin_dir Cli.studio_files) entries = false
    /\ Cli.os_path_dirname Cli.studio_files root = root.
Proof.
  apply (search_rez_bin_gives_up_at_the_root Cli.studio_files 5 "/home/ana").
  reflexivity.
Defined.

(** ** cli.py: runs of [main] that end early, and its flags *)

Section EarlyFacts.
Import Cli.

Variable w : World.

(** X19: with [--version], [main] prints the version and exits with status
    0: nothing else is printed, logging is not configured and the settings
    are not touched. *)
Theorem main_version_exits (rounds : nat) (st : state) :
  version (opts w) = true ->
  let run := main w rounds st in
  fst run = Raise (SystemExit 0)
  /\ trace (snd run)
     = (trace st
        ++ (if stdout_present w then [] else [StdioRedirected])
        ++ [Tell (allzpark_version w ++ str_repeat newline 1)])%list
  /\ storage (snd run) = storage st.
Proof.
  intros Hversion. unfold main, boot_console, boot_banner, setattr, tell,
    emit, modify, exit, raise.
  unfold mbind, M_bind, mret, M_ret. rewrite Hversion.
  destruct (stdout_present w); cbn; rewrite <- ?app_assoc; auto.
Qed.

(** X20: when Rez cannot be imported, a run without [--version] and
    [--demo] prints the banner, configures logging, announces the step,
    prints that Rez is required and exits with status 1: the "fail" line
    of a failed step is not printed, and no setting is written. *)
Theorem main_without_rez_exits (rounds : nat) (st : state) :
  version (opts w) = false ->
  demo (opts w) = false ->
  import_rez w = None ->
  let run := main w rounds st in
  let verbosity := if stdout_present w then verbose (opts w) else 3%Z in
  fst run = Raise (SystemExit 1)
  /\ trace (snd run)
     = (trace st
        ++ (if stdout_present w then [] else [StdioRedirected])
        ++ [Tell (str_repeat "=" 30 ++ str_repeat newline 1);
            Tell ((" allzpark (" ++ allzpark_version w ++ ")")
                  ++ str_repeat newline 1);
            Tell (str_repeat "=" 30 ++ str_repeat newline 1);
            LoggingConfigured
              (if (2 <=? verbosity)%Z then DEBUG
               else if (verbosity =? 1)%Z then INFO else WARNING)
              (negb (verbosity =? 0)%Z);
            Tell ("- Loading Rez.. " ++ str_repeat newline 0);
            Tell ("ERROR: allzpark requires rez"
                  ++ str_repeat newline 1)])%list
  /\ storage (snd run) = storage st.
Proof.
  intros Hversion Hdemo Hrez.
  unfold main, boot_console, boot_banner, boot_logging, boot_demo, boot_rez,
    timings, try_except, setattr, tell, emit, modify, get, exit, raise.
  unfold mbind, M_bind, mret, M_ret. rewrite Hversion, Hdemo, Hrez.
  destruct (stdout_present w).
  all: lazy beta iota zeta
         delta [is_ImportError is_Exception fst snd trace storage set_trace
                set_msg set_log_level set_allzparkconfig].
  all: split; [reflexivity|].
  all: split; [|reflexivity].
  all: rewrite <- !app_assoc; reflexivity.
Qed.

(** X21: [main] never looks at the [--no-config] flag: with it or without
    it the run is the same, and the user configuration is loaded all the
    same. *)
Theorem main_ignores_no_config (flag : bool) (rounds : nat) (st : state) :
  main (with_no_config flag w) rounds st = main w rounds st.
Proof. reflexivity. Qed.

End EarlyFacts.

Lemma main_version_exits_witness :
  let w := Cli.with_opts Cli.version_opts (Some Cli.studio_rez) Cli.studio in
  let run := Cli.main w 8 Cli.studio_start in
  fst run = Raise (SystemExit 0)
  /\ Cli.trace (snd run)
     = (Cli.trace Cli.studio_start
        ++ (if Cli.stdout_present w then [] else [Cli.StdioRedirected])
        ++ [Cli.Tell (Cli.allzpark_version w
                      ++ Cli.str_repeat Cli.newline 1)])%list
  /\ Cli.storage (snd run) = Cli.storage Cli.studio_start.
Proof.
  intros w.
  exact (main_version_exits w 8 Cli.studio_start eq_refl).
Defined.

Lemma main_without_rez_exits_witness :
  let w := Cli.with_opts Cli.plain_opts None Cli.studio in
  let run := Cli.main w 8 Cli.studio_start in
  let verbosity :=
    if Cli.stdout_present w then Cli.verbose (Cli.opts w) else 3%Z in
  fst run = Raise (SystemExit 1)
  /\ Cli.trace (snd run)
     = (Cli.trace Cli.studio_start
        ++ (if Cli.stdout_present w then [] else [Cli.StdioRedirected])
        ++ [Cli.Tell (Cli.str_repeat "=" 30 ++ Cli.str_repeat Cli.newline 1);
            Cli.Tell ((" allzpark (" ++ Cli.allzpark_version w ++ ")")
                      ++ Cli.str_repeat Cli.newline 1);
            Cli.Tell (Cli.str_repeat "=" 30 ++ Cli.str_repeat Cli.newline 1);
            Cli.LoggingConfigured
              (if (2 <=? verbosity)%Z then Cli.DEBUG
               else if (verbosity =? 1)%Z then Cli.INFO else Cli.WARNING)
              (negb (verbosity =? 0)%Z);
            Cli.Tell ("- Loading Rez.. " ++ Cli.str_repeat Cli.newline 0);
            Cli.Tell ("ERROR: allzpark requires rez"
                      ++ Cli.str_repeat Cli.newline 1)])%list
  /\ Cli.storage (snd run) = Cli.storage Cli.studio_start.
Proof.
  intros w.
  exact (main_without_rez_exits w 8 Cli.studio_start eq_refl eq_refl eq_refl).
Defined.


(** ** cli.py: the settings after the preferences step *)

Section PreferencesFacts.
Import Cli.

Variable w : World.

Lemma written_app (l1 l2 : list event) :
  written (l1 ++ l2) = (written l1 ++ written l2)%list.
Proof. apply omap_app. Qed.

(** The success text a step starts with is one the formatter fills in. *)
Lemma format_raises_default :
  format_raises w ("ok - {:.2f}" ++ newline) = None.
Proof. reflexivity. Qed.

(** X22: when the preferences step returns, the settings are the previous
    ones, or none at all with [--clean], overlaid with the entries the
    step wrote, in the order it wrote them; the thirteen defaults come
    first. *)
Theorem boot_preferences_settings (rez : RezInfo) (Qt : QtInfo) (st : state) :
  fst (boot_preferences w rez Qt st) = Ok tt ->
  exists l more,
    trace (snd (boot_preferences w rez Qt st)) = (trace st ++ l)%list
    /\ written l = (defaults w rez Qt st ++ more)%list
    /\ storage (snd (boot_preferences w rez Qt st))
       = store_all (written l)
           (if clean (opts w) then ∅ else storage st).
Proof.
  pose proof (@timings_outcome unit w "- Loading preferences.. " true)
    as Hout.
  unfold boot_preferences.
  match goal with
  | |- context [timings w _ _ ?body] =>
      specialize (Hout body st); set (b := body) in *
  end.
  cbv zeta in Hout.
  destruct (b (entered "- Loading preferences.. " true st))
    as [[[]|e|] after] eqn:Hb.
  2:{ destruct (is_Exception e); rewrite Hout; discriminate. }
  2:{ rewrite Hout. discriminate. }
  assert (Hafter :
            success (msg after) = "ok - {:.2f}" ++ newline
            /\ exists l more,
                 trace after
                 = (trace st
                    ++ Tell ("- Loading preferences.. "
                             ++ str_repeat newline 0) :: l)%list
                 /\ written l = (defaults w rez Qt st ++ more)%list
                 /\ storage after
                    = store_all (written l)
                        (if clean (opts w) then ∅ else storage st)).
  { revert Hb.
    unfold b, entered, store_startup, setValues, defaults, setValue,
      try_except, tell, emit, modify, get, exit, raise.
    unfold mbind, M_bind, mret, M_ret. cbn beta iota.
    destruct (settings_readable w); cbn beta iota delta [is_ValueError];
      [|discriminate].
    destruct (clean (opts w)); cbn beta iota;
      cbn [allzparkconfig set_trace set_msg set_storage];
      (destruct (allzparkconfig st !! "startup_profile") as [profile|];
       cbn beta iota;
       [destruct (truthy profile); cbn beta iota;
        cbn [allzparkconfig set_trace set_msg set_storage]
       |discriminate]);
      (destruct (allzparkconfig st !! "startup_application")
         as [application|];
       cbn beta iota;
       [destruct (truthy application); cbn beta iota;
        cbn [allzparkconfig set_trace set_msg set_storage]
       |discriminate]);
      destruct (demo (opts w)); cbn beta iota;
      intros [= <-]; (split; [reflexivity|]);
      cbn [fst snd trace set_trace set_msg set_storage storage];
      rewrite <- ?app_assoc; cbn [List.app].
    all: eexists; eexists; (split; [reflexivity|]);
      split; [cbn; reflexivity|reflexivity]. }
  destruct Hafter as (Hsuccess & l & more & Ht & Hw & Hs).
  rewrite Hsuccess, format_raises_default in Hout. rewrite Hout. intros _.
  exists ([Tell ("- Loading preferences.. " ++ str_repeat newline 0)] ++ l
          ++ [TellElapsed ("ok - {:.2f}" ++ newline)])%list, more.
  cbn [snd set_trace trace storage]. rewrite Ht.
  assert (Hwritten :
            written ([Tell ("- Loading preferences.. "
                            ++ str_repeat newline 0)] ++ l
                     ++ [TellElapsed ("ok - {:.2f}" ++ newline)])%list
            = written l).
  { rewrite !written_app. cbn [written omap list_omap List.app].
    apply app_nil_r. }
  rewrite Hwritten.
  split; [rewrite <- !app_assoc; reflexivity|].
  split; assumption.
Qed.

End PreferencesFacts.

Lemma boot_preferences_settings_witness :
  let w := Cli.with_opts Cli.clean_opts (Some Cli.studio_rez) Cli.studio in
  let st := Cli.initial Cli.fresh_config {[ "PATH" := "/usr/bin:/bin" ]}
              {[ "theme" := VStr "dark" ]} in
  exists l more,
    Cli.trace (snd (Cli.boot_preferences w Cli.studio_rez Cli.studio_qt st))
    = (Cli.trace st ++ l)%list
    /\ Cli.written l
       = (Cli.defaults w Cli.studio_rez Cli.studio_qt st ++ more)%list
    /\ Cli.storage
         (snd (Cli.boot_preferences w Cli.studio_rez Cli.studio_qt st))
       = Cli.store_all (Cli.written l)
           (if Cli.clean (Cli.opts w) then ∅ else Cli.storage st).
Proof.
  intros w st.
  apply (boot_preferences_settings w Cli.studio_rez Cli.studio_qt st).
  vm_compute. reflexivity.
Defined.

(** ** cli.py: where the startup ends *)

Section ThemesFacts.
Import Cli.

Variable w : World.






(** With the controller created, the step that loads the themes is
    reached, fails and ends the run with exit status 1. *)
Lemma boot_gui_exits (st : state) :
  new_Controller w = Ok tt ->
  fst (boot_gui w st) = Raise (SystemExit 1).
Proof.
  intros Hctrl. unfold boot_gui, timings, try_except, lift, tell, emit,
    modify, get, exit, raise.
  unfold mbind, M_bind, mret, M_ret. rewrite Hctrl. cbn beta iota.
  destruct (bool_decide _); cbn beta iota;
    match goal with
    | |- context [(log_level ?s <? WARNING)%Z] =>
        destruct (log_level s <? WARNING)%Z
    end; reflexivity.
Qed.


End ThemesFacts.

(** A path with braces in it: the user configuration is loaded, and then
    formatting the success text of the step raises [KeyError], which
    leaves [main] as it is, before the exception hook is installed. *)
Example main_config_path_with_braces :
  let run := Cli.main Cli.studio_braces 8 Cli.studio_start in
  fst run = Raise (KeyError "ana")
  /\ omap Cli.stage (Cli.trace (snd run)) = [1; 2]
  /\ last (Cli.trace (snd run))
     = Some (Cli.UserConfigLoad "/home/{ana}/allzparkconfig.py")
  /\ Cli.hook_installed (Cli.trace (snd run)) = false.
Proof. vm_compute. repeat split. Qed.
